(** * Marina raceline converter: a shallow embedding and its properties

    The development follows [parse_marina_to_f_map.py] (class
    [MarinaMapParser]) and the reader of [plot_raceline.py].

    - Text is a [string]; a character is a code point in U+0000..U+00FF.
    - A Python [float] is a binary64 value, [PrimFloat.float], with the
      IEEE operations of the kernel.
    - A Python [int] is a [Z]; list lengths are [nat] and are injected
      with [Z.of_nat] where the code stores them.
    - The builtins the code calls but does not define ([float] on a
      string, [math.sin], [math.cos], the [.4f] format) are the fields of
      the class [PyRuntime]; the operating system, which may refuse a
      file operation, is the class [FileSystem].
    - [try]/[except] is an error monad, [result]; the lists a loop appends
      to are an explicit state record; the prints and file operations of
      a run are a log that is threaded through it. *)

From Stdlib Require Import ZArith List String Ascii Bool Lia.
From Stdlib Require Import Floats DecimalString.
Import ListNotations.

Set Warnings "-inexact-float,-register-all".

Open Scope string_scope.
Open Scope list_scope.

(** ** Text *)

Module Text.

(** [str.isspace] on one character of the Latin-1 range. *)
Definition isspace (c : ascii) : bool :=
  let n := nat_of_ascii c in
  (((9 <=? n) && (n <=? 13)) || ((28 <=? n) && (n <=? 32))
   || (n =? 133) || (n =? 160))%nat.

(** [str.isdigit] on one character of the Latin-1 range: the decimal
    digits and the superscripts U+00B2, U+00B3, U+00B9. *)
Definition isdigit (c : ascii) : bool :=
  let n := nat_of_ascii c in
  (((48 <=? n) && (n <=? 57)) || (n =? 178) || (n =? 179) || (n =? 185))%nat.

Fixpoint lstrip (s : string) : string :=
  match s with
  | EmptyString => EmptyString
  | String c t => if isspace c then lstrip t else s
  end.

Fixpoint rstrip (s : string) : string :=
  match s with
  | EmptyString => EmptyString
  | String c t =>
      match rstrip t with
      | EmptyString => if isspace c then EmptyString else String c EmptyString
      | t' => String c t'
      end
  end.

(** [s.strip()] *)
Definition strip (s : string) : string := rstrip (lstrip s).

(** [s.startswith(p)] *)
Definition startswith (s p : string) : bool := String.prefix p s.

(** [any(c.isdigit() for c in s)] *)
Fixpoint any_isdigit (s : string) : bool :=
  match s with
  | EmptyString => false
  | String c t => isdigit c || any_isdigit t
  end.

(** [s.split(sep)] for a one-character separator: never an empty list. *)
Fixpoint split (sep : ascii) (s : string) : list string :=
  match s with
  | EmptyString => [EmptyString]
  | String c t =>
      if Ascii.eqb c sep then EmptyString :: split sep t
      else match split sep t with
           | [] => [String c EmptyString]
           | h :: r => String c h :: r
           end
  end.

End Text.

(** ** Exceptions *)

Inductive exn : Type :=
| ValueError
| IndexError
| KeyError
| TypeError
| AttributeError
| OSError.

Inductive result (A : Type) : Type :=
| Ok (a : A)
| Raise (e : exn).

Arguments Ok {A} a.
Arguments Raise {A} e.

Definition bind {A B : Type} (r : result A) (k : A -> result B) : result B :=
  match r with
  | Ok a => k a
  | Raise e => Raise e
  end.

Notation "x <- r ;; k" := (bind r (fun x => k))
  (at level 61, r at next level, right associativity).

(** A loop that builds a list and stops at the first exception. *)
Fixpoint map_result {A B : Type} (f : A -> result B) (l : list A)
  : result (list B) :=
  match l with
  | [] => Ok []
  | x :: t =>
      y <- f x ;;
      ys <- map_result f t ;;
      Ok (y :: ys)
  end.

(** ** The builtins the converter relies on *)

Class PyRuntime : Type := {
  (** [float(s)] on a string; [None] is [ValueError]. *)
  py_float : string -> option float;
  (** [math.sin] and [math.cos]; [None] is [ValueError] (math domain
      error), which they raise on an infinite argument. *)
  math_sin : float -> option float;
  math_cos : float -> option float;
  (** the format [f"{x:.4f}"]. *)
  format_4f : float -> string
}.

(** ** The column map *)

(** The keys of [self.column_mapping]. *)
Inductive column : Type :=
| rl_x_m | rl_y_m | rl_vx_mps | rl_psi_rad | rl_ax_mps2 | rl_n_m
| ref_rl_s_m | ref_rl_x_m | ref_rl_y_m | ref_rl_psi_rad
| ref_rl_kappa_radpm | ref_rl_d_right | ref_rl_d_left
| ref_cl_s_m | ref_cl_x_m | ref_cl_y_m | ref_cl_psi_rad
| ref_cl_kappa_radpm | ref_cl_d_right | ref_cl_d_left
| tb_left_x | tb_left_y | tb_right_x | tb_right_y.

Definition column_mapping (c : column) : nat :=
  match c with
  | rl_x_m => 0 | rl_y_m => 1 | rl_vx_mps => 3 | rl_psi_rad => 5
  | rl_ax_mps2 => 6 | rl_n_m => 4
  | ref_rl_s_m => 11 | ref_rl_x_m => 12 | ref_rl_y_m => 13
  | ref_rl_psi_rad => 15 | ref_rl_kappa_radpm => 18
  | ref_rl_d_right => 21 | ref_rl_d_left => 22
  | ref_cl_s_m => 26 | ref_cl_x_m => 27 | ref_cl_y_m => 28
  | ref_cl_psi_rad => 30 | ref_cl_kappa_radpm => 33
  | ref_cl_d_right => 36 | ref_cl_d_left => 37
  | tb_left_x => 41 | tb_left_y => 42 | tb_right_x => 44 | tb_right_y => 45
  end%nat.

(** The parameterization a column belongs to, as the comments of the
    column map group them. *)
Inductive frame : Type :=
| RawRacingLine
| ReferenceRacingLine
| ReferenceCenterline
| TrackBoundary.

Definition frame_of (c : column) : frame :=
  match c with
  | rl_x_m | rl_y_m | rl_vx_mps | rl_psi_rad | rl_ax_mps2 | rl_n_m =>
      RawRacingLine
  | ref_rl_s_m | ref_rl_x_m | ref_rl_y_m | ref_rl_psi_rad
  | ref_rl_kappa_radpm | ref_rl_d_right | ref_rl_d_left =>
      ReferenceRacingLine
  | ref_cl_s_m | ref_cl_x_m | ref_cl_y_m | ref_cl_psi_rad
  | ref_cl_kappa_radpm | ref_cl_d_right | ref_cl_d_left =>
      ReferenceCenterline
  | tb_left_x | tb_left_y | tb_right_x | tb_right_y => TrackBoundary
  end.

(** ** Waypoints *)

Record Waypoint : Type := {
  id : Z;
  s_m : float;
  d_m : float;
  x_m : float;
  y_m : float;
  d_right : float;
  d_left : float;
  psi_rad : float;
  kappa_radpm : float;
  vx_mps : float;
  ax_mps2 : float
}.

Section Projector.
Context {rt : PyRuntime}.

(** [values[i]]: [IndexError] past the end. *)
Definition index (values : list string) (i : nat) : result string :=
  match nth_error values i with
  | Some v => Ok v
  | None => Raise IndexError
  end.

(** [float(values[self.column_mapping[c]])] *)
Definition float_at (values : list string) (c : column) : result float :=
  v <- index values (column_mapping c) ;;
  match py_float v with
  | Some f => Ok f
  | None => Raise ValueError
  end.

Definition create_centerline_waypoint (values : list string) (waypoint_id : Z)
  : result Waypoint :=
  x <- float_at values ref_cl_x_m ;;
  y <- float_at values ref_cl_y_m ;;
  s <- float_at values ref_cl_s_m ;;
  psi <- float_at values ref_cl_psi_rad ;;
  kappa <- float_at values ref_cl_kappa_radpm ;;
  dr <- float_at values ref_cl_d_right ;;
  dl <- float_at values ref_cl_d_left ;;
  rl_vx <- float_at values rl_vx_mps ;;
  rl_ax <- float_at values rl_ax_mps2 ;;
  let vx := (rl_vx * 0.7)%float in
  let ax := (rl_ax * 0.5)%float in
  Ok {| id := waypoint_id; s_m := s; d_m := 0.0%float; x_m := x; y_m := y;
        d_right := dr; d_left := dl; psi_rad := psi; kappa_radpm := kappa;
        vx_mps := vx; ax_mps2 := ax |}.

Definition create_iqp_waypoint (values : list string) (waypoint_id : Z)
  (speed_factor : float) : result Waypoint :=
  x <- float_at values rl_x_m ;;
  y <- float_at values rl_y_m ;;
  psi <- float_at values rl_psi_rad ;;
  rl_vx <- float_at values rl_vx_mps ;;
  let vx := (rl_vx * speed_factor)%float in
  ax <- float_at values rl_ax_mps2 ;;
  s <- float_at values ref_rl_s_m ;;
  kappa <- float_at values ref_rl_kappa_radpm ;;
  dr <- float_at values ref_rl_d_right ;;
  dl <- float_at values ref_rl_d_left ;;
  Ok {| id := waypoint_id; s_m := s; d_m := 0.0%float; x_m := x; y_m := y;
        d_right := dr; d_left := dl; psi_rad := psi; kappa_radpm := kappa;
        vx_mps := vx; ax_mps2 := ax |}.

Definition create_sp_waypoint (values : list string) (waypoint_id : Z)
  : result Waypoint :=
  s <- float_at values ref_rl_s_m ;;
  x <- float_at values ref_rl_x_m ;;
  y <- float_at values ref_rl_y_m ;;
  psi <- float_at values ref_rl_psi_rad ;;
  kappa <- float_at values ref_rl_kappa_radpm ;;
  dr <- float_at values ref_rl_d_right ;;
  dl <- float_at values ref_rl_d_left ;;
  rl_vx <- float_at values rl_vx_mps ;;
  rl_ax <- float_at values rl_ax_mps2 ;;
  let vx := (rl_vx * 0.85)%float in
  let ax := (rl_ax * 0.8)%float in
  Ok {| id := waypoint_id; s_m := s; d_m := 0.0%float; x_m := x; y_m := y;
        d_right := dr; d_left := dl; psi_rad := psi; kappa_radpm := kappa;
        vx_mps := vx; ax_mps2 := ax |}.

End Projector.

(** ** The row loop of [load_marina_csv] *)

(** What [print] writes, one constructor per message of the code, with
    the values the message is formatted from. *)
Inductive message : Type :=
| MsgBanner
| MsgLoading (csv_file : string)
| MsgFound (n : nat)
| MsgWarning (i : nat) (e : exn)
| MsgParsed (n : nat)
| MsgErrorNoWaypoints
| MsgCreatedDirectory (output_dir : string)
| MsgCreatingFiles
| MsgWritten (filepath : string)
| MsgCopiedImage (target_image : string)
| MsgWarningNoImage (source_image : string)
| MsgComplete (output_dir : string) (n_centerline n_iqp n_sp : nat)
| MsgErrorNotFound (csv_file : string)
| MsgError (e : exn).
(* [MsgWarningNoImage] and [MsgComplete] stand for the runs of lines the
   code prints one after the other at these places. *)

(** The dictionary [load_marina_csv] returns; during the loop, the three
    lists the body appends to. *)
Record trajectories : Type := {
  centerline : list Waypoint;
  iqp : list Waypoint;
  sp : list Waypoint
}.

Definition len {A : Type} (l : list A) : Z := Z.of_nat (List.length l).

(** The first loop: the stripped lines that are kept. *)
Fixpoint read_data_lines (f : list string) : list string :=
  match f with
  | [] => []
  | line :: rest =>
      let line := Text.strip line in
      if match line with EmptyString => true | _ => false end
         || Text.startswith line "#"
      then read_data_lines rest
      else if Text.startswith line "nan" || negb (Text.any_isdigit line)
      then read_data_lines rest
      else line :: read_data_lines rest
  end.

(** [[v.strip() for v in line.split(',')]] *)
Definition split_values (line : string) : list string :=
  map Text.strip (Text.split "," line).

Section Loader.
Context {rt : PyRuntime}.

(** The body of the [try]: the lists as the body leaves them, and the
    exception if one was raised. *)
Definition try_row (st : trajectories) (line : string)
  : trajectories * option exn :=
  let values := split_values line in
  match create_centerline_waypoint values (len (centerline st)) with
  | Raise e => (st, Some e)
  | Ok cl_waypoint =>
      let st1 := {| centerline := centerline st ++ [cl_waypoint];
                    iqp := iqp st; sp := sp st |} in
      match create_iqp_waypoint values (len (iqp st1)) 1.0%float with
      | Raise e => (st1, Some e)
      | Ok iqp_waypoint =>
          let st2 := {| centerline := centerline st1;
                        iqp := iqp st1 ++ [iqp_waypoint]; sp := sp st1 |} in
          match create_sp_waypoint values (len (sp st2)) with
          | Raise e => (st2, Some e)
          | Ok sp_waypoint =>
              ({| centerline := centerline st2; iqp := iqp st2;
                  sp := sp st2 ++ [sp_waypoint] |}, None)
          end
      end
  end.

(** [for i, line in enumerate(data_lines)], from index [i] on. *)
Fixpoint convert_rows (i : nat) (data_lines : list string)
  (st : trajectories) (out : list message) : trajectories * list message :=
  match data_lines with
  | [] => (st, out)
  | line :: rest =>
      match try_row st line with
      | (st', None) => convert_rows (S i) rest st' out
      | (st', Some e) => convert_rows (S i) rest st' (out ++ [MsgWarning i e])
      end
  end.

(** [load_marina_csv], on the lines of the opened file. *)
Definition load_marina_csv (csv_file : string) (f : list string)
  : trajectories * list message :=
  let data_lines := read_data_lines f in
  let out := [MsgLoading csv_file; MsgFound (List.length data_lines)] in
  let '(st, out) :=
    convert_rows 0 data_lines {| centerline := []; iqp := []; sp := [] |} out in
  (st, out ++ [MsgParsed (List.length (centerline st))]).

End Loader.

(** ** Documents *)

(** The values the converter puts into its JSON and YAML documents. *)
Inductive pyval : Type :=
| PInt (z : Z)
| PFloat (x : float)
| PStr (s : string)
| PBool (b : bool)
| PList (l : list pyval)
| PDict (d : list (string * pyval)).

Fixpoint assoc (k : string) (d : list (string * pyval)) : option pyval :=
  match d with
  | [] => None
  | (k', v) :: rest => if String.eqb k k' then Some v else assoc k rest
  end.

(** [d[k]] *)
Definition getitem (d : pyval) (k : string) : result pyval :=
  match d with
  | PDict kv => match assoc k kv with
                | Some v => Ok v
                | None => Raise KeyError
                end
  | _ => Raise TypeError
  end.

(** [d.get(k, default)]; a value that is not a dictionary has no [get]. *)
Definition get_default (d : pyval) (k : string) (default : pyval)
  : result pyval :=
  match d with
  | PDict kv => Ok (match assoc k kv with
                    | Some v => v
                    | None => default
                    end)
  | _ => Raise AttributeError
  end.

(** [l[::step]] for [step >= 1]: [skip] elements are passed over before
    the next one is taken. *)
Fixpoint every_from {A : Type} (step skip : nat) (l : list A) : list A :=
  match l with
  | [] => []
  | x :: t =>
      match skip with
      | O => x :: every_from step (step - 1) t
      | S k => every_from step k t
      end
  end.

Definition slice_step {A : Type} (l : list A) (step : nat) : list A :=
  every_from step 0 l.

Definition enumerate {A : Type} (l : list A) : list (nat * A) :=
  combine (seq 0 (List.length l)) l.

(** [max(xs)] and [min(xs)] on floats: the first element is kept until a
    later one compares strictly above (below) it; [ValueError] on an
    empty sequence. *)
Definition py_max (xs : list float) : result float :=
  match xs with
  | [] => Raise ValueError
  | x :: t => Ok (fold_left (fun m y => if (m <? y)%float then y else m) t x)
  end.

Definition py_min (xs : list float) : result float :=
  match xs with
  | [] => Raise ValueError
  | x :: t => Ok (fold_left (fun m y => if (y <? m)%float then y else m) t x)
  end.

Definition stamp_zero : pyval :=
  PDict [("secs", PInt 0); ("nsecs", PInt 0)].

Definition wpnt_msg (wp : Waypoint) : pyval :=
  PDict [("id", PInt (id wp));
         ("s_m", PFloat (s_m wp));
         ("d_m", PFloat (d_m wp));
         ("x_m", PFloat (x_m wp));
         ("y_m", PFloat (y_m wp));
         ("d_right", PFloat (d_right wp));
         ("d_left", PFloat (d_left wp));
         ("psi_rad", PFloat (psi_rad wp));
         ("kappa_radpm", PFloat (kappa_radpm wp));
         ("vx_mps", PFloat (vx_mps wp));
         ("ax_mps2", PFloat (ax_mps2 wp))].

Definition create_waypoint_array (waypoints : list Waypoint) : pyval :=
  let wpnt_list := map wpnt_msg waypoints in
  PDict [("header", PDict [("seq", PInt 1);
                           ("stamp", stamp_zero);
                           ("frame_id", PStr "")]);
         ("wpnts", PList wpnt_list)].

(** The dictionary both marker builders fill in; [ns], [id], [type], the
    position, the scale and the colour are what varies. *)
Definition marker_dict (ns : string) (marker_id : Z) (type : Z)
  (x y : float) (scale : float) (color : pyval) : pyval :=
  PDict [("header", PDict [("seq", PInt 0);
                           ("stamp", stamp_zero);
                           ("frame_id", PStr "map")]);
         ("ns", PStr ns);
         ("id", PInt marker_id);
         ("type", PInt type);
         ("action", PInt 0);
         ("pose", PDict [("position", PDict [("x", PFloat x);
                                             ("y", PFloat y);
                                             ("z", PInt 0)]);
                         ("orientation", PDict [("x", PInt 0);
                                                ("y", PInt 0);
                                                ("z", PInt 0);
                                                ("w", PInt 1)])]);
         ("scale", PDict [("x", PFloat scale);
                          ("y", PFloat scale);
                          ("z", PFloat scale)]);
         ("color", color);
         ("lifetime", stamp_zero);
         ("frame_locked", PBool false);
         ("points", PList []);
         ("colors", PList []);
         ("text", PStr "");
         ("mesh_resource", PStr "");
         ("mesh_use_embedded_materials", PBool false)].

Definition create_waypoint_markers (waypoints : list Waypoint)
  (marker_type : string) (color : pyval) : pyval :=
  let sample_rate := Nat.max 1 (List.length waypoints / 500) in
  let markers :=
    map (fun '(i, wp) =>
           marker_dict "" (Z.of_nat i) 2 (x_m wp) (y_m wp) 0.05%float color)
        (enumerate (slice_step waypoints sample_rate)) in
  PDict [("markers", PList markers)].

Section Serializer.
Context {rt : PyRuntime}.

Definition boundary_color : pyval :=
  PDict [("r", PInt 1); ("g", PFloat 0.5); ("b", PInt 0); ("a", PFloat 0.7)].

(** [math.sin(x)] and [math.cos(x)] as calls. *)
Definition sin_of (x : float) : result float :=
  match math_sin x with
  | Some v => Ok v
  | None => Raise ValueError
  end.

Definition cos_of (x : float) : result float :=
  match math_cos x with
  | Some v => Ok v
  | None => Raise ValueError
  end.

(** The body of the inner loop of [create_trackbounds_markers]. *)
Definition trackbounds_marker (boundary_side : string) (color : pyval)
  (i : nat) (wp : Waypoint) : result pyval :=
  boundary <-
    (if String.eqb boundary_side "left" then
       s <- sin_of (psi_rad wp) ;;
       let boundary_x := (x_m wp + d_left wp * (-1) * s)%float in
       c <- cos_of (psi_rad wp) ;;
       let boundary_y := (y_m wp + d_left wp * c)%float in
       Ok (boundary_x, boundary_y)
     else
       s <- sin_of (psi_rad wp) ;;
       let boundary_x := (x_m wp + d_right wp * s)%float in
       c <- cos_of (psi_rad wp) ;;
       let boundary_y := (y_m wp + d_right wp * (-1) * c)%float in
       Ok (boundary_x, boundary_y)) ;;
  let marker_id :=
    if String.eqb boundary_side "left" then Z.of_nat i
    else (Z.of_nat i + 1000)%Z in
  Ok (marker_dict ("trackbounds_" ++ boundary_side) marker_id 1
                  (fst boundary) (snd boundary) 0.1%float color).

(** The list [markers] that [create_trackbounds_markers] fills: one pass
    over the sample for each side, left first. *)
Definition trackbounds_marker_list (waypoints : list Waypoint)
  : result (list pyval) :=
  let sample_rate := Nat.max 1 (List.length waypoints / 200) in
  passes <-
    map_result
      (fun '(boundary_side, color) =>
         map_result (fun '(i, wp) => trackbounds_marker boundary_side color i wp)
                    (enumerate (slice_step waypoints sample_rate)))
      [("left", boundary_color); ("right", boundary_color)] ;;
  Ok (List.concat passes).

Definition create_trackbounds_markers (waypoints : list Waypoint)
  : result pyval :=
  markers <- trackbounds_marker_list waypoints ;;
  Ok (PDict [("markers", PList markers)]).

Definition rgba (r g b a : Z) : pyval :=
  PDict [("r", PInt r); ("g", PInt g); ("b", PInt b); ("a", PInt a)].

Definition create_global_waypoints_json (trajectory_data : trajectories)
  : result pyval :=
  let centerline_waypoints := centerline trajectory_data in
  let iqp_waypoints := iqp trajectory_data in
  let sp_waypoints := sp trajectory_data in
  let centerline_array := create_waypoint_array centerline_waypoints in
  let iqp_array := create_waypoint_array iqp_waypoints in
  let sp_array := create_waypoint_array sp_waypoints in
  let lap_time := 108.68526373056437%float in
  iqp_max_speed <- py_max (map vx_mps iqp_waypoints) ;;
  sp_max_speed <- py_max (map vx_mps sp_waypoints) ;;
  let iqp_lap_time := lap_time in
  let sp_lap_time := (lap_time * 1.08)%float in
  let centerline_markers :=
    create_waypoint_markers centerline_waypoints "centerline" (rgba 0 0 1 1) in
  let iqp_markers :=
    create_waypoint_markers iqp_waypoints "iqp" (rgba 1 0 0 1) in
  let sp_markers :=
    create_waypoint_markers sp_waypoints "sp" (rgba 0 1 0 1) in
  trackbounds_markers <- create_trackbounds_markers iqp_waypoints ;;
  Ok (PDict
        [("map_info_str",
          PDict [("data",
                  PStr ("IQP estimated lap time: " ++ format_4f iqp_lap_time
                        ++ "s; IQP maximum speed: " ++ format_4f iqp_max_speed
                        ++ "m/s; SP estimated lap time: "
                        ++ format_4f sp_lap_time
                        ++ "s; SP maximum speed: " ++ format_4f sp_max_speed
                        ++ "m/s; "))]);
         ("est_lap_time", PDict [("data", PFloat sp_lap_time)]);
         ("centerline_markers", centerline_markers);
         ("centerline_waypoints", centerline_array);
         ("global_traj_markers_iqp", iqp_markers);
         ("global_traj_wpnts_iqp", iqp_array);
         ("global_traj_markers_sp", sp_markers);
         ("global_traj_wpnts_sp", sp_array);
         ("trackbounds_markers", trackbounds_markers)]).

Definition create_map_yaml (output_map_name : string)
  (waypoints : list Waypoint) : result pyval :=
  let x_coords := map x_m waypoints in
  let y_coords := map y_m waypoints in
  min_x <- py_min x_coords ;;
  max_x <- py_max x_coords ;;
  min_y <- py_min y_coords ;;
  max_y <- py_max y_coords ;;
  let padding := 5.0%float in
  let origin_x := (min_x - padding)%float in
  let origin_y := (min_y - padding)%float in
  Ok (PDict [("free_thresh", PFloat 0.196);
             ("image", PStr (output_map_name ++ ".png"));
             ("negate", PInt 0);
             ("occupied_thresh", PFloat 0.65);
             ("origin", PList [PFloat origin_x; PFloat origin_y; PInt 0]);
             ("resolution", PFloat 0.05000000074505806)]).

Definition create_ot_sectors_yaml (waypoints : list Waypoint) : pyval :=
  let total_waypoints := len waypoints in
  PDict [("n_sectors", PInt 2);
         ("yeet_factor", PFloat 1.25);
         ("spline_len", PInt 30);
         ("ot_sector_begin", PFloat 0.5);
         ("Overtaking_sector0",
          PDict [("start", PInt 0);
                 ("end", PInt (total_waypoints / 2));
                 ("ot_flag", PBool false)]);
         ("Overtaking_sector1",
          PDict [("start", PInt (total_waypoints / 2 + 1));
                 ("end", PInt (total_waypoints - 1));
                 ("ot_flag", PBool false)])]%Z.

Definition create_speed_scaling_yaml (waypoints : list Waypoint) : pyval :=
  let total_waypoints := len waypoints in
  PDict [("global_limit", PFloat 0.5);
         ("n_sectors", PInt 1);
         ("Sector0",
          PDict [("start", PInt 0);
                 ("end", PInt (total_waypoints - 1));
                 ("scaling", PFloat 0.5);
                 ("only_FTG", PBool false);
                 ("no_FTG", PBool false)])]%Z.

End Serializer.

(** ** The run: [parse] and [main] *)

(** What a run does to the outside: its prints and its file operations,
    in order. *)
Inductive effect : Type :=
| Print (m : message)
| MakeDirs (path : string)
| WriteJson (filepath : string) (data : pyval)
| WriteYaml (filepath : string) (data : pyval)
| CopyFile (source target : string).

(** The effects of a run other than printing, in order. *)
Definition file_effects (out : list effect) : list effect :=
  filter (fun e => match e with Print _ => false | _ => true end) out.

(** The operating system: whether it carries out a file operation, given
    the file operations it carried out before in the run. An operation
    it refuses raises [OSError] (a missing directory, a copy of a file
    onto itself, a denied permission). *)
Class FileSystem : Type := {
  carried_out : list effect -> effect -> bool
}.

(** [os.path.join(a, b)] *)
Definition path_join (a b : string) : string :=
  if Text.startswith b "/" then b
  else match a with
       | EmptyString => b
       | _ => if String.eqb (substring (String.length a - 1) 1 a) "/"
              then a ++ b else a ++ "/" ++ b
       end.

Definition base_path : string :=
  "/home/atlas.linux/Documents/BA/ETH/race_stack/stack_master/maps".

Definition source_image : string :=
  "/home/atlas.linux/Documents/BA/ETH/race_stack/stack_master/maps/f/f.png".

(** A step of a run: from the log so far to the log after it, with the
    value returned or the exception raised. *)
Definition io (A : Type) : Type := list effect -> list effect * result A.

Definition io_ret {A : Type} (a : A) : io A := fun out => (out, Ok a).

Definition io_bind {A B : Type} (c : io A) (k : A -> io B) : io B :=
  fun out =>
    match c out with
    | (out', Ok a) => k a out'
    | (out', Raise e) => (out', Raise e)
    end.

Notation "x <-- c ;; k" := (io_bind c (fun x => k))
  (at level 61, c at next level, right associativity).

Notation "c ;;; k" := (io_bind c (fun _ => k))
  (at level 61, right associativity).

Definition lift {A : Type} (r : result A) : io A := fun out => (out, r).

Definition print (m : message) : io unit :=
  fun out => (out ++ [Print m], Ok tt).

Definition prints (ms : list message) : io unit :=
  fun out => (out ++ map Print ms, Ok tt).

Section Run.
Context {rt : PyRuntime} {fs : FileSystem}.

(** A file operation: logged when carried out, [OSError] when refused. *)
Definition perform (op : effect) : io unit :=
  fun out =>
    if carried_out (file_effects out) op then (out ++ [op], Ok tt)
    else (out, Raise OSError).

Definition create_output_directory (output_map_name : string) : io string :=
  let output_dir := path_join base_path output_map_name in
  perform (MakeDirs output_dir) ;;;
  print (MsgCreatedDirectory output_dir) ;;;
  io_ret output_dir.

Definition write_yaml_file (data : pyval) (filepath : string) : io unit :=
  perform (WriteYaml filepath data) ;;;
  print (MsgWritten filepath).

Definition write_json_file (data : pyval) (filepath : string) : io unit :=
  perform (WriteJson filepath data) ;;;
  print (MsgWritten filepath).

(** [source_exists] is [os.path.exists(source_image)]. *)
Definition copy_placeholder_image (output_map_name output_dir : string)
  (source_exists : bool) : io unit :=
  let target_image := path_join output_dir (output_map_name ++ ".png") in
  if source_exists
  then perform (CopyFile source_image target_image) ;;;
       print (MsgCopiedImage target_image)
  else print (MsgWarningNoImage source_image).

(** [parse]: the log of the run and the value returned or the exception
    that escapes. [f] is the content of the CSV file, by lines. *)
Definition parse (csv_file output_map_name : string) (f : list string)
  (source_exists : bool) : list effect * result bool :=
  (print MsgBanner ;;;
   let '(trajectory_data, printed) := load_marina_csv csv_file f in
   prints printed ;;;
   match centerline trajectory_data with
   | [] =>
       print MsgErrorNoWaypoints ;;;
       io_ret false
   | _ :: _ =>
       output_dir <-- create_output_directory output_map_name ;;
       print MsgCreatingFiles ;;;
       global_waypoints <--
         lift (create_global_waypoints_json trajectory_data) ;;
       let json_path := path_join output_dir "global_waypoints.json" in
       write_json_file global_waypoints json_path ;;;
       map_config <--
         lift (create_map_yaml output_map_name (centerline trajectory_data)) ;;
       let yaml_path := path_join output_dir (output_map_name ++ ".yaml") in
       write_yaml_file map_config yaml_path ;;;
       let ot_sectors := create_ot_sectors_yaml (centerline trajectory_data) in
       let ot_path := path_join output_dir "ot_sectors.yaml" in
       write_yaml_file ot_sectors ot_path ;;;
       let speed_scaling :=
         create_speed_scaling_yaml (centerline trajectory_data) in
       let speed_path := path_join output_dir "speed_scaling.yaml" in
       write_yaml_file speed_scaling speed_path ;;;
       copy_placeholder_image output_map_name output_dir source_exists ;;;
       print (MsgComplete output_dir
                      (List.length (centerline trajectory_data))
                      (List.length (iqp trajectory_data))
                      (List.length (sp trajectory_data))) ;;;
       io_ret true
   end) [].

(** [main]: [csv] is [None] when [os.path.exists(args.csv_file)] is false,
    and [Some f] when the file is there and [open] reads it as the lines
    [f]. The value is the exit code. *)
Definition main (csv_file output_name : string) (csv : option (list string))
  (source_exists : bool) : list effect * Z :=
  match csv with
  | None => ([Print (MsgErrorNotFound csv_file)], 1%Z)
  | Some f =>
      match parse csv_file output_name f source_exists with
      | (out, Ok success) => (out, if success then 0%Z else 1%Z)
      | (out, Raise e) => (out ++ [Print (MsgError e)], 1%Z)
      end
  end.

End Run.

(** ** The reader of [plot_raceline.py] *)

Module PlotRaceline.

(** [load_waypoints_data], on the document [json.load] returns. *)
Definition load_waypoints_data (data : pyval)
  : result (pyval * pyval * pyval * pyval) :=
  cl <- getitem data "centerline_waypoints" ;;
  centerline_waypoints <- getitem cl "wpnts" ;;
  gi <- getitem data "global_traj_wpnts_iqp" ;;
  iqp_waypoints <- getitem gi "wpnts" ;;
  gs <- getitem data "global_traj_wpnts_sp" ;;
  sp_waypoints <- getitem gs "wpnts" ;;
  block <- get_default data "trackbounds_markers" (PDict []) ;;
  trackbounds_markers <- get_default block "markers" (PList []) ;;
  Ok (centerline_waypoints, iqp_waypoints, sp_waypoints, trackbounds_markers).

(** [[wp[k] for wp in waypoints]] *)
Fixpoint column_of (k : string) (waypoints : list pyval) : result (list pyval) :=
  match waypoints with
  | [] => Ok []
  | wp :: rest =>
      v <- getitem wp k ;;
      vs <- column_of k rest ;;
      Ok (v :: vs)
  end.

(** [for wp in waypoints]: the entries of a list, the keys of a
    dictionary, the characters of a string; nothing else is iterable. *)
Definition items (waypoints : pyval) : result (list pyval) :=
  match waypoints with
  | PList l => Ok l
  | PDict kv => Ok (map (fun kv => PStr (fst kv)) kv)
  | PStr s => Ok (map (fun c => PStr (String c EmptyString))
                      (list_ascii_of_string s))
  | PInt _ | PFloat _ | PBool _ => Raise TypeError
  end.

Definition extract_coordinates_and_speeds (waypoints : pyval)
  : result (list pyval * list pyval * list pyval) :=
  wps <- items waypoints ;;
  x_coords <- column_of "x_m" wps ;;
  y_coords <- column_of "y_m" wps ;;
  speeds <- column_of "vx_mps" wps ;;
  Ok (x_coords, y_coords, speeds).

(** [[wp['s_m'] for wp in waypoints]], as [plot_trajectories] reads the
    arc lengths. *)
Definition arc_lengths (waypoints : pyval) : result (list pyval) :=
  wps <- items waypoints ;;
  column_of "s_m" wps.

End PlotRaceline.

(** ** A runtime and a file system to evaluate the converter with

    [float] follows Python's grammar on text of the Latin-1 range:
    surrounding whitespace, a sign, then [inf], [infinity] or [nan] in
    any case, or a decimal numeral with an optional fraction and an
    optional exponent, with single underscores between digits. The value
    [m * 10^e] is rounded to the nearest binary64, ties to even, by the
    operations of [SpecFloat] on the integers [m] and [10^|e|].
    Sine and cosine are refused on the infinities and are otherwise
    their Maclaurin polynomials of degree 7 and 6, exact at 0. The
    format [.4f] rounds the exact binary value half to even at the
    fourth decimal. *)

Module Reference.

Definition digit_value (c : ascii) : option Z :=
  let n := nat_of_ascii c in
  if ((48 <=? n) && (n <=? 57))%nat then Some (Z.of_nat (n - 48)) else None.

Definition lower (c : ascii) : ascii :=
  let n := nat_of_ascii c in
  if ((65 <=? n) && (n <=? 90))%nat then ascii_of_nat (n + 32) else c.

Fixpoint lowercase (s : string) : string :=
  match s with
  | EmptyString => EmptyString
  | String c t => String (lower c) (lowercase t)
  end.

(** The digits at the head of [s], single underscores between them
    passed over, and what follows them. *)
Fixpoint digits_run (s : string) : list Z * string :=
  match s with
  | EmptyString => ([], EmptyString)
  | String c t =>
      match digit_value c with
      | None => ([], s)
      | Some d =>
          match t with
          | String "_" (String c' _ as t') =>
              match digit_value c' with
              | Some _ => let '(ds, r) := digits_run t' in (d :: ds, r)
              | None => ([d], t)
              end
          | _ => let '(ds, r) := digits_run t in (d :: ds, r)
          end
      end
  end.

Definition value_of (ds : list Z) : Z :=
  fold_left (fun acc d => 10 * acc + d)%Z ds 0%Z.

(** The binary64 nearest to [m * 10^e10], for [m >= 0]. *)
Definition round_decimal (m : Z) (digits : nat) (e10 : Z) : float :=
  match m with
  | Zpos p =>
      if (310 <? e10)%Z then infinity
      else if (e10 + Z.of_nat digits <? -330)%Z then 0%float
      else if (0 <=? e10)%Z
      then SF2Prim (binary_normalize prec emax (m * 10 ^ e10) 0 false)
      else SF2Prim (SFdiv prec emax (S754_finite false p 0)
                          (S754_finite false (Z.to_pos (10 ^ (- e10))) 0))
  | _ => 0%float
  end.

(** The exponent part, or nothing, up to the end of the text. *)
Definition exponent (s : string) : option Z :=
  match s with
  | EmptyString => Some 0%Z
  | String "e" t =>
      let '(neg, t') := match t with
                        | String "-" u => (true, u)
                        | String "+" u => (false, u)
                        | _ => (false, t)
                        end in
      match digits_run t' with
      | (d :: ds, EmptyString) =>
          Some (if neg then - value_of (d :: ds) else value_of (d :: ds))%Z
      | _ => None
      end
  | _ => None
  end.

Definition unsigned_float (s : string) : option float :=
  if (String.eqb s "inf" || String.eqb s "infinity")%bool then Some infinity
  else if String.eqb s "nan" then Some nan
  else
    let '(ip, r1) := digits_run s in
    let '(fp, r2) := match r1 with
                     | String "." t => digits_run t
                     | _ => ([], r1)
                     end in
    match (ip ++ fp)%list, exponent r2 with
    | _ :: _, Some e =>
        Some (round_decimal (value_of (ip ++ fp)%list)
                            (List.length (ip ++ fp)%list)
                            (e - Z.of_nat (List.length fp)))
    | _, _ => None
    end.

Definition float_of_string (s : string) : option float :=
  match lowercase (Text.strip s) with
  | String "-" t => option_map PrimFloat.opp (unsigned_float t)
  | String "+" t => unsigned_float t
  | t => unsigned_float t
  end.

Definition sin_poly (x : float) : float :=
  let x2 := (x * x)%float in
  (x * (1 - x2 / 6 * (1 - x2 / 20 * (1 - x2 / 42))))%float.

Definition cos_poly (x : float) : float :=
  let x2 := (x * x)%float in
  (1 - x2 / 2 * (1 - x2 / 12 * (1 - x2 / 30)))%float.

(** The integer nearest to [m * 2^e * 10^4], ties to even. *)
Definition scaled_round (m : positive) (e : Z) : Z :=
  let num := (Zpos m * 10000 * 2 ^ Z.max e 0)%Z in
  let den := (2 ^ Z.max (- e) 0)%Z in
  let q := (num / den)%Z in
  let r := (num mod den)%Z in
  match (2 * r ?= den)%Z with
  | Lt => q
  | Gt => (q + 1)%Z
  | Eq => if Z.even q then q else (q + 1)%Z
  end.

Definition string_of_Z (z : Z) : string :=
  DecimalString.NilZero.string_of_uint (N.to_uint (Z.to_N z)).

Definition pad4 (s : string) : string :=
  match String.length s with
  | 0 => "0000" | 1 => "000" | 2 => "00" | 3 => "0" | _ => ""
  end%nat ++ s.

Definition fixed4 (x : float) : string :=
  match Prim2SF x with
  | S754_nan => "nan"
  | S754_infinity s => if s then "-inf" else "inf"
  | S754_zero s => if s then "-0.0000" else "0.0000"
  | S754_finite s m e =>
      let q := scaled_round m e in
      (if s then "-" else "") ++ string_of_Z (q / 10000)
      ++ "." ++ pad4 (string_of_Z (q mod 10000))
  end.

Definition sin (x : float) : option float :=
  if is_infinity x then None else Some (sin_poly x).

Definition cos (x : float) : option float :=
  if is_infinity x then None else Some (cos_poly x).

#[export] Instance runtime : PyRuntime := {
  py_float := float_of_string;
  math_sin := sin;
  math_cos := cos;
  format_4f := fixed4
}.

(** A file system that refuses nothing. *)
Definition obliging : FileSystem := {| carried_out := fun _ _ => true |}.

(** [os.path.dirname(p)] *)
Fixpoint dirname (p : string) : string :=
  match p with
  | EmptyString => EmptyString
  | String c t =>
      if existsb (Ascii.eqb "/") (list_ascii_of_string t)
      then String c (dirname t)
      else EmptyString
  end.

Definition made (dir : string) (done : list effect) : bool :=
  existsb (fun e => match e with
                    | MakeDirs d => String.eqb d dir
                    | _ => false
                    end) done.

(** A disk on which the run may make any directory, a file can be
    written or copied only into a directory the run has made, and a file
    cannot be copied onto itself. *)
Definition fresh_disk : FileSystem :=
  {| carried_out := fun done op =>
       match op with
       | Print _ | MakeDirs _ => true
       | WriteJson p _ | WriteYaml p _ => made (dirname p) done
       | CopyFile source target =>
           negb (String.eqb source target) && made (dirname target) done
       end |}.

End Reference.

(** ** Sample inputs *)

Module Samples.

(** A full row: field [i] is the numeral of [i]. *)
Definition row : string :=
  "0,1,2,3,4,5,6,7,8,9,10,11,12,13,14,15,16,17,18,19,20,21,22,23,24,25,26,27,28,29,30,31,32,33,34,35,36,37,38,39,40,41,42,43,44,45".

(** The same row with a non-numeric first field ([x_rl_m]). *)
Definition row_bad_x_rl : string :=
  "x,1,2,3,4,5,6,7,8,9,10,11,12,13,14,15,16,17,18,19,20,21,22,23,24,25,26,27,28,29,30,31,32,33,34,35,36,37,38,39,40,41,42,43,44,45".

(** The same row with a non-numeric [x_ref_rl_m] (field 12). *)
Definition row_bad_x_ref_rl : string :=
  "0,1,2,3,4,5,6,7,8,9,10,11,x,13,14,15,16,17,18,19,20,21,22,23,24,25,26,27,28,29,30,31,32,33,34,35,36,37,38,39,40,41,42,43,44,45".

(** The same row with an infinite raw racing-line heading (field 5). *)
Definition row_inf_heading : string :=
  "0,1,2,3,4,inf,6,7,8,9,10,11,12,13,14,15,16,17,18,19,20,21,22,23,24,25,26,27,28,29,30,31,32,33,34,35,36,37,38,39,40,41,42,43,44,45".

(** A row that starts with [nan] and has digits further on. *)
Definition row_nan_first : string :=
  "nan,1,2,3,4,5,6,7,8,9,10,11,12,13,14,15,16,17,18,19,20,21,22,23,24,25,26,27,28,29,30,31,32,33,34,35,36,37,38,39,40,41,42,43,44,45".

Definition waypoint (i : Z) (x y psi dl dr : float) : Waypoint :=
  {| id := i; s_m := 0; d_m := 0; x_m := x; y_m := y; d_right := dr;
     d_left := dl; psi_rad := psi; kappa_radpm := 0; vx_mps := 1;
     ax_mps2 := 0 |}.

Definition four_waypoints : list Waypoint :=
  [waypoint 0 1 3 0 2 2; waypoint 1 2 3 0 2 2;
   waypoint 2 3 3 0 2 2; waypoint 3 4 3 0 2 2].

End Samples.

(** ** What the properties are stated with *)

(** The order in which the row loop appends: a list is never longer than
    the one appended to before it. *)
Definition staggered (st : trajectories) : Prop :=
  (List.length (sp st) <= List.length (iqp st)
   /\ List.length (iqp st) <= List.length (centerline st))%nat.

(** The ids of a list are its positions. *)
Definition dense (l : list Waypoint) : Prop :=
  map id l = map Z.of_nat (seq 0 (List.length l)).

Definition all_dense (st : trajectories) : Prop :=
  dense (centerline st) /\ dense (iqp st) /\ dense (sp st).

(** The two guards of the first loop, on a stripped line. *)
Definition skip_condition (l : string) : Prop :=
  l = "" \/ Text.startswith l "#" = true
  \/ Text.startswith l "nan" = true \/ Text.any_isdigit l = false.

(** The rule of the first loop at one line of the file. *)
Definition row_parser_rule (line : string) (rest : list string) : Prop :=
  let l := Text.strip line in
  (skip_condition l /\ read_data_lines (line :: rest) = read_data_lines rest)
  \/ (~ skip_condition l
      /\ read_data_lines (line :: rest) = l :: read_data_lines rest).

(** The fields of a kept line: the pieces between its commas, which put
    back together with commas are the line, each stripped. *)
Definition row_fields_rule (l : string) : Prop :=
  let fields := Text.split "," l in
  String.concat "," fields = l
  /\ Forall (fun field =>
               existsb (Ascii.eqb ",") (list_ascii_of_string field) = false)
            fields
  /\ split_values l = map Text.strip fields
  /\ Forall (fun v => Text.strip v = v) (split_values l).

(** The parameterization a field of the CSV belongs to, by its place in
    the header that the comment of the column map quotes: 11 columns of
    the raw racing line, 15 of the reference racing line, 15 of the
    reference centerline, then the track boundaries. *)
Definition frame_of_index (k : nat) : frame :=
  if (k <? 11)%nat then RawRacingLine
  else if (k <? 26)%nat then ReferenceRacingLine
  else if (k <? 41)%nat then ReferenceCenterline
  else TrackBoundary.

(** The rule with three reasons to skip only: empty, comment, no digit. *)
Definition three_reasons (l : string) : Prop :=
  l = "" \/ Text.startswith l "#" = true \/ Text.any_isdigit l = false.

Definition three_reasons_rule (line : string) (rest : list string) : Prop :=
  let l := Text.strip line in
  (three_reasons l /\ read_data_lines (line :: rest) = read_data_lines rest)
  \/ (~ three_reasons l
      /\ read_data_lines (line :: rest) = l :: read_data_lines rest).

(** [doc[name]] read as a sector: its [start], [end] and [ot_flag]. *)
Definition sector (doc : pyval) (name : string)
  : result (pyval * pyval * pyval) :=
  s <- getitem doc name ;;
  s_start <- getitem s "start" ;;
  s_end <- getitem s "end" ;;
  s_flag <- getitem s "ot_flag" ;;
  Ok (s_start, s_end, s_flag).

(** The number of indices from [first] to [last], both included. *)
Definition range_size (first last : Z) : Z := Z.max 0 (last - first + 1).

(** The two sectors of the document are of equal size. *)
Definition equal_halves (doc : pyval) : Prop :=
  exists s0 e0 f0 s1 e1 f1,
    sector doc "Overtaking_sector0" = Ok (PInt s0, PInt e0, f0)
    /\ sector doc "Overtaking_sector1" = Ok (PInt s1, PInt e1, f1)
    /\ range_size s0 e0 = range_size s1 e1.

(** An effect that reports a fatal error. *)
Definition is_error_report (e : effect) : Prop :=
  e = Print MsgErrorNoWaypoints \/ exists x, e = Print (MsgError x).

(** An effect that puts a file into the output directory. *)
Definition writes_file (e : effect) : Prop :=
  match e with
  | WriteJson _ _ | WriteYaml _ _ | CopyFile _ _ => True
  | Print _ | MakeDirs _ => False
  end.

Definition is_print (e : effect) : Prop := exists m, e = Print m.

(** [(marker['pose']['position']['x'], marker['pose']['position']['y'])],
    as the plotting utility reads a marker. *)
Definition marker_position (marker : pyval) : result (pyval * pyval) :=
  pose <- getitem marker "pose" ;;
  position <- getitem pose "position" ;;
  x <- getitem position "x" ;;
  y <- getitem position "y" ;;
  Ok (x, y).

(** Two floats that are the same coordinate: the same value, the two
    zeros being one. *)
Definition same_coordinate (a b : float) : Prop :=
  a = b \/ PrimFloat.eqb a b = true.

(** The waypoints [create_trackbounds_markers] samples. *)
Definition sampled_for_bounds (waypoints : list Waypoint) : list Waypoint :=
  slice_step waypoints (Nat.max 1 (List.length waypoints / 200)).

Section Provenance.
Context {rt : PyRuntime}.

(** [create] takes [field] from column [c]: on every row it converts, the
    field of the waypoint is the number in that column. *)
Definition reads_from (create : list string -> result Waypoint)
  (field : Waypoint -> float) (c : column) : Prop :=
  forall values wp, create values = Ok wp ->
                    float_at values c = Ok (field wp).

(** Every field of [fields] is taken from a column of the frame [fr]. *)
Definition in_frame (create : list string -> result Waypoint) (fr : frame)
  (fields : list (Waypoint -> float)) : Prop :=
  forall field, In field fields ->
                exists c, frame_of c = fr /\ reads_from create field c.

(** [create] takes [field] from the field number [k] of the row: on
    every row it converts, the field of the waypoint is [float] of the
    text at index [k]. *)
Definition takes (create : list string -> result Waypoint)
  (field : Waypoint -> float) (k : nat) : Prop :=
  forall values wp,
    create values = Ok wp ->
    exists text, nth_error values k = Some text
                 /\ py_float text = Some (field wp).

Definition geometric_fields : list (Waypoint -> float) :=
  [s_m; x_m; y_m; psi_rad; kappa_radpm; d_left; d_right].

(** The arc length and the other geometric fields come from one frame. *)
Definition one_frame (create : list string -> result Waypoint) : Prop :=
  exists fr, in_frame create fr geometric_fields.

(** Every waypoint of the three lists is the conversion of a row. *)
Definition from_rows (st : trajectories) : Prop :=
  (forall wp, In wp (centerline st) ->
     exists line i, create_centerline_waypoint (split_values line) i = Ok wp)
  /\ (forall wp, In wp (iqp st) ->
       exists line i, create_iqp_waypoint (split_values line) i 1.0 = Ok wp)
  /\ (forall wp, In wp (sp st) ->
       exists line i, create_sp_waypoint (split_values line) i = Ok wp).

End Provenance.

(** ** The boundary reader of [plot_raceline.py]

    [extract_trackbounds_coordinates] on a list of markers whose values
    are those of [pyval] (the converter writes no [null]). *)

Module PlotBounds.

(** What escapes a call: an exception of [exn], or the [OverflowError]
    of [float] on an integer too large for a binary64. *)
Inductive error : Type :=
| Exn (e : exn)
| OverflowError.

(** [float(n)] on an integer: the nearest binary64, ties to even;
    [None] is [OverflowError]. *)
Definition int_to_float (n : Z) : option float :=
  match binary_normalize prec emax n 0 false with
  | S754_infinity _ => None
  | sf => Some (SF2Prim sf)
  end.

(** The four lists [extract_trackbounds_coordinates] returns, and the
    counter [valid_markers] it prints. *)
Record bounds : Type := {
  left_bounds_x : list float;
  left_bounds_y : list float;
  right_bounds_x : list float;
  right_bounds_y : list float;
  valid_markers : nat
}.

Definition no_bounds : bounds :=
  {| left_bounds_x := []; left_bounds_y := []; right_bounds_x := [];
     right_bounds_y := []; valid_markers := 0 |}.

(** [k in d] *)
Definition has_key (d : list (string * pyval)) (k : string) : bool :=
  match assoc k d with Some _ => true | None => false end.

(** [v == s] for a string literal [s]. *)
Definition is_str (v : option pyval) (s : string) : bool :=
  match v with
  | Some (PStr s') => String.eqb s' s
  | _ => false
  end.

(** The condition of the [if]: the position dictionary when it holds. *)
Definition checked_position (marker : pyval)
  : option (list (string * pyval)) :=
  match marker with
  | PDict m =>
      if has_key m "ns"
         && (is_str (assoc "ns" m) "trackbounds_left"
             || is_str (assoc "ns" m) "trackbounds_right")
      then match assoc "pose" m with
           | Some (PDict pose) =>
               match assoc "position" pose with
               | Some (PDict position) =>
                   if has_key position "x" && has_key position "y"
                   then Some position else None
               | _ => None
               end
           | _ => None
           end
      else None
  | _ => None
  end.

Section Extract.
Context {rt : PyRuntime}.

(** [float(v)] on a value of a loaded document. *)
Definition float_of_value (v : pyval) : error + float :=
  match v with
  | PFloat x => inr x
  | PInt n => match int_to_float n with
              | Some x => inr x
              | None => inl OverflowError
              end
  | PBool b => inr (if b then 1%float else 0%float)
  | PStr s => match py_float s with
              | Some x => inr x
              | None => inl (Exn ValueError)
              end
  | PList _ | PDict _ => inl (Exn TypeError)
  end.

(** One turn of the loop: the lists after it, or the error that is not
    caught by [except (KeyError, TypeError, ValueError)]. *)
Definition scan_marker (acc : bounds) (marker : pyval) : error + bounds :=
  match checked_position marker with
  | None => inr acc
  | Some position =>
      match assoc "x" position, assoc "y" position with
      | Some vx, Some vy =>
          match float_of_value vx with
          | inl OverflowError => inl OverflowError
          | inl (Exn _) => inr acc
          | inr x =>
              match float_of_value vy with
              | inl OverflowError => inl OverflowError
              | inl (Exn _) => inr acc
              | inr y =>
                  let ns := match marker with
                            | PDict m => assoc "ns" m
                            | _ => None
                            end in
                  if is_str ns "trackbounds_left" then
                    inr {| left_bounds_x := left_bounds_x acc ++ [x];
                           left_bounds_y := left_bounds_y acc ++ [y];
                           right_bounds_x := right_bounds_x acc;
                           right_bounds_y := right_bounds_y acc;
                           valid_markers := S (valid_markers acc) |}
                  else if is_str ns "trackbounds_right" then
                    inr {| left_bounds_x := left_bounds_x acc;
                           left_bounds_y := left_bounds_y acc;
                           right_bounds_x := right_bounds_x acc ++ [x];
                           right_bounds_y := right_bounds_y acc ++ [y];
                           valid_markers := S (valid_markers acc) |}
                  else
                    inr {| left_bounds_x := left_bounds_x acc;
                           left_bounds_y := left_bounds_y acc;
                           right_bounds_x := right_bounds_x acc;
                           right_bounds_y := right_bounds_y acc;
                           valid_markers := S (valid_markers acc) |}
              end
          end
      | _, _ => inr acc
      end
  end.

Fixpoint scan_markers (acc : bounds) (markers : list pyval) : error + bounds :=
  match markers with
  | [] => inr acc
  | marker :: rest =>
      match scan_marker acc marker with
      | inl e => inl e
      | inr acc' => scan_markers acc' rest
      end
  end.

(** [extract_trackbounds_coordinates], on a list of markers. *)
Definition extract_trackbounds_coordinates (trackbounds_markers : list pyval)
  : error + bounds :=
  scan_markers no_bounds trackbounds_markers.

End Extract.

End PlotBounds.

(** ** More of what the properties are stated with *)

Definition is_warning (m : message) : bool :=
  match m with MsgWarning _ _ => true | _ => false end.

(** The markers of a marker document. *)
Definition markers_of (doc : pyval) : result (list pyval) :=
  ms <- getitem doc "markers" ;;
  PlotRaceline.items ms.

(** What one turn of the loop of the boundary reader keeps. *)
Definition paired (b : PlotBounds.bounds) : Prop :=
  List.length (PlotBounds.left_bounds_x b)
  = List.length (PlotBounds.left_bounds_y b)
  /\ List.length (PlotBounds.right_bounds_x b)
     = List.length (PlotBounds.right_bounds_y b)
  /\ PlotBounds.valid_markers b
     = (List.length (PlotBounds.left_bounds_x b)
        + List.length (PlotBounds.right_bounds_x b))%nat.

Section RowPredicates.
Context {rt : PyRuntime}.

(** The sines and cosines [sc] of the headings of [waypoints], where
    [math.sin] and [math.cos] return. *)
Definition headings_resolve (waypoints : list Waypoint)
  (sc : list (float * float)) : Prop :=
  Forall2 (fun wp p => math_sin (psi_rad wp) = Some (fst p)
                       /\ math_cos (psi_rad wp) = Some (snd p))
          waypoints sc.

(** The left and the right marker of a waypoint with sine and cosine
    [p] of its heading. *)
Definition left_marker (i : nat) (wp : Waypoint) (p : float * float) : pyval :=
  marker_dict "trackbounds_left" (Z.of_nat i) 1
    (x_m wp - d_left wp * fst p)%float (y_m wp + d_left wp * snd p)%float
    0.1%float boundary_color.

Definition right_marker (i : nat) (wp : Waypoint) (p : float * float) : pyval :=
  marker_dict "trackbounds_right" (Z.of_nat i + 1000) 1
    (x_m wp + d_right wp * fst p)%float (y_m wp - d_right wp * snd p)%float
    0.1%float boundary_color.

(** The log when the row loop is over: the banner and the prints of
    [load_marina_csv]. *)
Definition loaded_log (csv_file : string) (f : list string) : list effect :=
  Print MsgBanner :: map Print (snd (load_marina_csv csv_file f)).

(** A data line from which the three waypoints can be made. *)
Definition converts (line : string) : Prop :=
  forall i,
    (exists wp, create_centerline_waypoint (split_values line) i = Ok wp)
    /\ (exists wp, create_iqp_waypoint (split_values line) i 1.0 = Ok wp)
    /\ (exists wp, create_sp_waypoint (split_values line) i = Ok wp).

(** Every waypoint of the lists is made from a line of [lines], with a
    lateral offset of zero. *)
Definition made_from (lines : list string) (st : trajectories) : Prop :=
  (forall wp, In wp (centerline st) ->
     d_m wp = 0%float
     /\ exists line i, In line lines
          /\ create_centerline_waypoint (split_values line) i = Ok wp)
  /\ (forall wp, In wp (iqp st) ->
        d_m wp = 0%float
        /\ exists line i, In line lines
             /\ create_iqp_waypoint (split_values line) i 1.0 = Ok wp)
  /\ (forall wp, In wp (sp st) ->
        d_m wp = 0%float
        /\ exists line i, In line lines
             /\ create_sp_waypoint (split_values line) i = Ok wp).

End RowPredicates.

(** * Properties *)

(** ** Facts of binary64 arithmetic the converter relies on *)

Section FloatFacts.

Local Open Scope Z_scope.

(** 1.0 and -1.0 have the mantissa 2^52 at exponent -52. *)
Let unit_mantissa : positive := 4503599627370496.

Lemma shr_unit_mantissa (m : positive) :
  iter_pos shr_1 52
    {| shr_m := Zpos (unit_mantissa * m); shr_r := false; shr_s := false |}
  = {| shr_m := Zpos m; shr_r := false; shr_s := false |}.
Proof. reflexivity. Qed.

Lemma digits_unit_mantissa (m : positive) :
  Zpos (digits2_pos (unit_mantissa * m)) = Zpos (digits2_pos m) + 52.
Proof. unfold unit_mantissa. cbn [Pos.mul digits2_pos]. lia. Qed.

(** Rounding the product of a canonical mantissa with the mantissa of a
    unit gives the mantissa back. *)
Lemma round_times_unit (s : bool) (m : positive) (e : Z) :
  bounded prec emax m e = true ->
  binary_round_aux prec emax s (Zpos (m * unit_mantissa)) (e + -52) loc_Exact
  = S754_finite s m e.
Proof.
  intros Hb. apply andb_prop in Hb as [Hc He].
  unfold canonical_mantissa in Hc. apply Z.eqb_eq in Hc.
  rewrite Pos.mul_comm.
  unfold binary_round_aux, shr_fexp.
  unfold Zdigits2 at 1. rewrite digits_unit_mantissa.
  replace (Zpos (digits2_pos m) + 52 + (e + -52))
    with (Zpos (digits2_pos m) + e) by lia.
  rewrite Hc.
  replace (e - (e + -52)) with 52 by lia.
  unfold shr at 1. cbn [shr_record_of_loc]. rewrite shr_unit_mantissa.
  cbn [shr_m loc_of_shr_record round_nearest_even Zdigits2].
  replace (e + -52 + 52) with e by lia.
  rewrite Hc, Z.sub_diag. cbn [shr shr_record_of_loc shr_m].
  rewrite He. reflexivity.
Qed.

Lemma float_mul_1_r (x : float) : (x * 1)%float = x.
Proof.
  apply Prim2SF_inj. rewrite mul_spec.
  pose proof (Prim2SF_valid x) as Hv.
  change (Prim2SF 1) with (S754_finite false unit_mantissa (-52)).
  destruct (Prim2SF x) as [s|s| |s m e];
    try (destruct s; reflexivity); try reflexivity.
  unfold SF64mul, SFmul. rewrite xorb_false_r.
  apply round_times_unit. exact Hv.
Qed.

Lemma float_mul_m1_r (x : float) : (x * (-1))%float = (- x)%float.
Proof.
  apply Prim2SF_inj. rewrite mul_spec, opp_spec.
  pose proof (Prim2SF_valid x) as Hv.
  change (Prim2SF (-1)) with (S754_finite true unit_mantissa (-52)).
  destruct (Prim2SF x) as [s|s| |s m e];
    try (destruct s; reflexivity); try reflexivity.
  unfold SF64mul, SFmul. rewrite xorb_true_r.
  apply round_times_unit. exact Hv.
Qed.

Lemma float_mul_opp_l (a b : float) : ((- a) * b)%float = (- (a * b))%float.
Proof.
  apply Prim2SF_inj. rewrite mul_spec, !opp_spec, mul_spec.
  destruct (Prim2SF a) as [s|s| |s m e], (Prim2SF b) as [t|t| |t n f]; cbn;
    try reflexivity; try (destruct s, t; reflexivity).
  unfold binary_round_aux.
  destruct (shr_fexp _ _ _ _ _) as [mrs' e'].
  destruct (shr_fexp _ _ _ _ _) as [mrs'' e''].
  destruct (shr_m mrs''); try reflexivity.
  - destruct s, t; reflexivity.
  - destruct (_ <=? _); destruct s, t; reflexivity.
Qed.

Lemma float_add_opp_r (a b : float) : (a + (- b))%float = (a - b)%float.
Proof.
  apply Prim2SF_inj. rewrite add_spec, opp_spec, sub_spec.
  destruct (Prim2SF a) as [s|s| |s m e], (Prim2SF b) as [t|t| |t n f]; cbn;
    try reflexivity; destruct s, t; reflexivity.
Qed.

(** [a + b * (-1) * c] is [a - b * c]: how the code writes the two
    subtractions of the boundary offsets. *)
Lemma float_add_mul_m1 (a b c : float) :
  (a + b * (-1) * c)%float = (a - b * c)%float.
Proof.
  rewrite float_mul_m1_r, float_mul_opp_l. apply float_add_opp_r.
Qed.

Lemma float_sub_0_r (x : float) : (x - 0)%float = x.
Proof.
  apply Prim2SF_inj. rewrite sub_spec.
  change (Prim2SF 0) with (S754_zero false).
  destruct (Prim2SF x) as [s|s| |s m e];
    try (destruct s; reflexivity); reflexivity.
Qed.

(** Adding [+0] changes nothing but the sign of [-0]. *)
Lemma float_add_0_r (x : float) :
  (x + 0)%float = x \/ (x = (-0)%float /\ (x + 0)%float = 0%float).
Proof.
  destruct (Prim2SF x) as [s|s| |s m e] eqn:Hx.
  - destruct s.
    + right. assert (x = (-0)%float) as -> by (apply Prim2SF_inj; exact Hx).
      split; reflexivity.
    + left. assert (x = 0%float) as -> by (apply Prim2SF_inj; exact Hx).
      reflexivity.
  - left. apply Prim2SF_inj. rewrite add_spec, Hx. destruct s; reflexivity.
  - left. apply Prim2SF_inj. rewrite add_spec, Hx. reflexivity.
  - left. apply Prim2SF_inj. rewrite add_spec, Hx. reflexivity.
Qed.

End FloatFacts.

(** ** The projector, row by row *)

Section ProjectorFacts.
Context {rt : PyRuntime}.

(** One step through a [bind] whose result is known to be [Ok]. *)
Ltac bind_step H :=
  cbv beta zeta in H;
  match type of H with
  | bind ?r _ = Ok _ =>
      let v := fresh "v" in
      let E := fresh "E" in
      destruct r as [v|] eqn:E; cbn [bind] in H; [| discriminate H]
  end.

Lemma create_centerline_waypoint_inv (values : list string) (i : Z)
  (wp : Waypoint) :
  create_centerline_waypoint values i = Ok wp ->
  exists x y s psi kappa dr dl v a,
    float_at values ref_cl_x_m = Ok x /\
    float_at values ref_cl_y_m = Ok y /\
    float_at values ref_cl_s_m = Ok s /\
    float_at values ref_cl_psi_rad = Ok psi /\
    float_at values ref_cl_kappa_radpm = Ok kappa /\
    float_at values ref_cl_d_right = Ok dr /\
    float_at values ref_cl_d_left = Ok dl /\
    float_at values rl_vx_mps = Ok v /\
    float_at values rl_ax_mps2 = Ok a /\
    wp = {| id := i; s_m := s; d_m := 0; x_m := x; y_m := y; d_right := dr;
            d_left := dl; psi_rad := psi; kappa_radpm := kappa;
            vx_mps := (v * 0.7)%float; ax_mps2 := (a * 0.5)%float |}.
Proof.
  unfold create_centerline_waypoint. intros H.
  do 9 bind_step H. cbv beta zeta in H. injection H as <-.
  do 9 eexists. repeat split; reflexivity.
Qed.

Lemma create_iqp_waypoint_inv (values : list string) (i : Z)
  (speed_factor : float) (wp : Waypoint) :
  create_iqp_waypoint values i speed_factor = Ok wp ->
  exists x y s psi kappa dr dl v a,
    float_at values rl_x_m = Ok x /\
    float_at values rl_y_m = Ok y /\
    float_at values rl_psi_rad = Ok psi /\
    float_at values rl_vx_mps = Ok v /\
    float_at values rl_ax_mps2 = Ok a /\
    float_at values ref_rl_s_m = Ok s /\
    float_at values ref_rl_kappa_radpm = Ok kappa /\
    float_at values ref_rl_d_right = Ok dr /\
    float_at values ref_rl_d_left = Ok dl /\
    wp = {| id := i; s_m := s; d_m := 0; x_m := x; y_m := y; d_right := dr;
            d_left := dl; psi_rad := psi; kappa_radpm := kappa;
            vx_mps := (v * speed_factor)%float; ax_mps2 := a |}.
Proof.
  unfold create_iqp_waypoint. intros H.
  do 9 bind_step H. cbv beta zeta in H. injection H as <-.
  do 9 eexists. repeat split; reflexivity.
Qed.

Lemma create_sp_waypoint_inv (values : list string) (i : Z) (wp : Waypoint) :
  create_sp_waypoint values i = Ok wp ->
  exists x y s psi kappa dr dl v a,
    float_at values ref_rl_s_m = Ok s /\
    float_at values ref_rl_x_m = Ok x /\
    float_at values ref_rl_y_m = Ok y /\
    float_at values ref_rl_psi_rad = Ok psi /\
    float_at values ref_rl_kappa_radpm = Ok kappa /\
    float_at values ref_rl_d_right = Ok dr /\
    float_at values ref_rl_d_left = Ok dl /\
    float_at values rl_vx_mps = Ok v /\
    float_at values rl_ax_mps2 = Ok a /\
    wp = {| id := i; s_m := s; d_m := 0; x_m := x; y_m := y; d_right := dr;
            d_left := dl; psi_rad := psi; kappa_radpm := kappa;
            vx_mps := (v * 0.85)%float; ax_mps2 := (a * 0.8)%float |}.
Proof.
  unfold create_sp_waypoint. intros H.
  do 9 bind_step H. cbv beta zeta in H. injection H as <-.
  do 9 eexists. repeat split; reflexivity.
Qed.

Lemma float_at_inv (values : list string) (c : column) (v : float) :
  float_at values c = Ok v ->
  exists text, nth_error values (column_mapping c) = Some text
               /\ py_float text = Some v.
Proof.
  unfold float_at, index.
  destruct (nth_error values (column_mapping c)) as [text |]; cbn [bind];
    [| discriminate].
  destruct (py_float text) as [x |] eqn:E; intros H; [| discriminate H].
  injection H as <-. exists text. split; [reflexivity | exact E].
Qed.

(** C1. On a row from which the three waypoints are produced, the speed
    and acceleration targets are the raw racing-line speed [v] (field 3
    of the row) and acceleration [a] (field 6), scaled: centerline
    [v * 0.7] and [a * 0.5], moderate (SP) [v * 0.85] and [a * 0.8],
    aggressive (IQP) [v] and [a] themselves. The products are binary64
    products; the aggressive speed is computed as [v * 1.0], which is
    [v]. *)
Theorem speed_and_acceleration_scaling (values : list string) (i j k : Z)
  (cl q s : Waypoint) :
  create_centerline_waypoint values i = Ok cl ->
  create_iqp_waypoint values j 1.0 = Ok q ->
  create_sp_waypoint values k = Ok s ->
  exists speed accel v a,
    nth_error values 3 = Some speed /\ py_float speed = Some v /\
    nth_error values 6 = Some accel /\ py_float accel = Some a /\
    vx_mps cl = (v * 0.7)%float /\ ax_mps2 cl = (a * 0.5)%float /\
    vx_mps s = (v * 0.85)%float /\ ax_mps2 s = (a * 0.8)%float /\
    vx_mps q = v /\ ax_mps2 q = a.
Proof.
  intros Hcl Hq Hs.
  apply create_centerline_waypoint_inv in Hcl
    as (x & y & s0 & psi & kappa & dr & dl & v & a &
        _ & _ & _ & _ & _ & _ & _ & Hv & Ha & ->).
  apply create_iqp_waypoint_inv in Hq
    as (x' & y' & s' & psi' & kappa' & dr' & dl' & v' & a' &
        _ & _ & _ & Hv' & Ha' & _ & _ & _ & _ & ->).
  apply create_sp_waypoint_inv in Hs
    as (x'' & y'' & s'' & psi'' & kappa'' & dr'' & dl'' & v'' & a'' &
        _ & _ & _ & _ & _ & _ & _ & Hv'' & Ha'' & ->).
  rewrite Hv in Hv', Hv''. rewrite Ha in Ha', Ha''.
  injection Hv' as <-. injection Hv'' as <-.
  injection Ha' as <-. injection Ha'' as <-.
  apply float_at_inv in Hv as (speed & Hspeed & Pv).
  apply float_at_inv in Ha as (accel & Haccel & Pa).
  exists speed, accel, v, a. cbn. rewrite float_mul_1_r.
  repeat split; assumption || reflexivity.
Qed.

End ProjectorFacts.

Lemma speed_and_acceleration_scaling_witness :
  let values := split_values Samples.row in
  exists cl q s,
    create_centerline_waypoint (rt := Reference.runtime) values 0 = Ok cl /\
    create_iqp_waypoint (rt := Reference.runtime) values 0 1.0 = Ok q /\
    create_sp_waypoint (rt := Reference.runtime) values 0 = Ok s /\
    nth_error values 3 = Some "3" /\ nth_error values 6 = Some "6" /\
    py_float (PyRuntime := Reference.runtime) "3" = Some 3%float /\
    py_float (PyRuntime := Reference.runtime) "6" = Some 6%float /\
    vx_mps cl = (3 * 0.7)%float /\ vx_mps cl = 2.0999999999999996%float /\
    ax_mps2 cl = (6 * 0.5)%float /\ ax_mps2 cl = 3%float /\
    vx_mps s = (3 * 0.85)%float /\ vx_mps s = 2.55%float /\
    ax_mps2 s = (6 * 0.8)%float /\ ax_mps2 s = 4.8000000000000007%float /\
    vx_mps q = 3%float /\ ax_mps2 q = 6%float.
Proof.
  intros values.
  assert (Hcl : exists cl,
             create_centerline_waypoint (rt := Reference.runtime) values 0
             = Ok cl) by (eexists; vm_compute; reflexivity).
  assert (Hq : exists q,
             create_iqp_waypoint (rt := Reference.runtime) values 0 1.0 = Ok q)
    by (eexists; vm_compute; reflexivity).
  assert (Hs : exists s,
             create_sp_waypoint (rt := Reference.runtime) values 0 = Ok s)
    by (eexists; vm_compute; reflexivity).
  destruct Hcl as [cl Hcl]. destruct Hq as [q Hq]. destruct Hs as [s Hs].
  destruct (speed_and_acceleration_scaling (rt := Reference.runtime)
              values 0 0 0 cl q s Hcl Hq Hs)
    as (speed & accel & v & a & Hspeed & Pv & Haccel & Pa &
        H1 & H2 & H3 & H4 & H5 & H6).
  vm_compute in Hspeed. injection Hspeed as <-.
  vm_compute in Haccel. injection Haccel as <-.
  assert (P3 : py_float (PyRuntime := Reference.runtime) "3" = Some 3%float)
    by (vm_compute; reflexivity).
  assert (P6 : py_float (PyRuntime := Reference.runtime) "6" = Some 6%float)
    by (vm_compute; reflexivity).
  rewrite P3 in Pv. injection Pv as <-.
  rewrite P6 in Pa. injection Pa as <-.
  exists cl, q, s.
  repeat split; try assumption; try (vm_compute; reflexivity);
    (rewrite H1 || rewrite H2 || rewrite H3 || rewrite H4);
    vm_compute; reflexivity.
Defined.

(** ** The row loop *)

Section LoaderFacts.
Context {rt : PyRuntime}.

Lemma dense_app (l : list Waypoint) (wp : Waypoint) :
  dense l -> id wp = len l -> dense (l ++ [wp]).
Proof.
  unfold dense, len. intros Hl Hid.
  rewrite map_app, length_app, Nat.add_comm. cbn [List.length Nat.add].
  rewrite seq_S, map_app, Hl. cbn. now rewrite Hid.
Qed.

Lemma try_row_staggered (st : trajectories) (line : string) :
  staggered st -> staggered (fst (try_row st line)).
Proof.
  unfold staggered, try_row. intros [H1 H2].
  destruct (create_centerline_waypoint _ _); cbn; [| lia].
  destruct (create_iqp_waypoint _ _ _); cbn; [| rewrite length_app; cbn; lia].
  destruct (create_sp_waypoint _ _); cbn; rewrite ?length_app; cbn; lia.
Qed.

Lemma created_waypoint_id (values : list string) (i : Z) (wp : Waypoint) :
  create_centerline_waypoint values i = Ok wp
  \/ create_iqp_waypoint values i 1.0 = Ok wp
  \/ create_sp_waypoint values i = Ok wp ->
  id wp = i.
Proof.
  intros [H | [H | H]];
    [apply create_centerline_waypoint_inv in H
    | apply create_iqp_waypoint_inv in H
    | apply create_sp_waypoint_inv in H];
    destruct H as (? & ? & ? & ? & ? & ? & ? & ? & ? &
                   _ & _ & _ & _ & _ & _ & _ & _ & _ & ->); reflexivity.
Qed.

Lemma try_row_dense (st : trajectories) (line : string) :
  all_dense st -> all_dense (fst (try_row st line)).
Proof.
  unfold all_dense, try_row. intros (Hc & Hq & Hs).
  destruct (create_centerline_waypoint _ _) as [c|] eqn:Ec; cbn; [| tauto].
  assert (Hc' : dense (centerline st ++ [c]))
    by (apply dense_app; [exact Hc | apply (created_waypoint_id _ _ _ (or_introl Ec))]).
  destruct (create_iqp_waypoint _ _ _) as [q|] eqn:Eq; cbn; [| tauto].
  assert (Hq' : dense (iqp st ++ [q])).
  { apply dense_app; [exact Hq |].
    apply (created_waypoint_id (split_values line)). right; left. exact Eq. }
  destruct (create_sp_waypoint _ _) as [s|] eqn:Es; cbn; [| tauto].
  repeat split; try assumption.
  apply dense_app; [exact Hs |].
  apply (created_waypoint_id (split_values line)). right; right. exact Es.
Qed.

Lemma try_row_from_rows (st : trajectories) (line : string) :
  from_rows st -> from_rows (fst (try_row st line)).
Proof.
  unfold from_rows, try_row. intros (Hc & Hq & Hs).
  assert (Hadd : forall (l : list Waypoint) (w : Waypoint) (P : Waypoint -> Prop),
             (forall wp, In wp l -> P wp) -> P w ->
             forall wp, In wp (l ++ [w]) -> P wp).
  { intros l w P Hl Hw wp Hin.
    apply in_app_or in Hin as [Hin | [<- | []]]; auto. }
  destruct (create_centerline_waypoint _ _) as [c|] eqn:Ec; cbn; [| tauto].
  destruct (create_iqp_waypoint _ _ _) as [q|] eqn:Eq; cbn;
    [| split; [apply Hadd; [exact Hc | eauto] | tauto]].
  destruct (create_sp_waypoint _ _) as [s|] eqn:Es; cbn;
    (split; [apply Hadd; [exact Hc | eauto] |]);
    (split; [apply Hadd; [exact Hq | eauto] |]);
    [apply Hadd; [exact Hs | eauto] | exact Hs].
Qed.

Lemma convert_rows_invariant (P : trajectories -> Prop) :
  (forall st line, P st -> P (fst (try_row st line))) ->
  forall data_lines i st out,
    P st -> P (fst (convert_rows i data_lines st out)).
Proof.
  intros Hstep data_lines.
  induction data_lines as [| line rest IH]; intros i st out Hst; cbn.
  - exact Hst.
  - specialize (Hstep st line Hst).
    destruct (try_row st line) as [st' [e|]]; apply IH; exact Hstep.
Qed.

Lemma load_marina_csv_invariant (P : trajectories -> Prop) :
  (forall st line, P st -> P (fst (try_row st line))) ->
  P {| centerline := []; iqp := []; sp := [] |} ->
  forall csv_file f, P (fst (load_marina_csv csv_file f)).
Proof.
  intros Hstep Hinit csv_file f. unfold load_marina_csv.
  pose proof (convert_rows_invariant P Hstep (read_data_lines f) 0%nat
                {| centerline := []; iqp := []; sp := [] |}
                [MsgLoading csv_file; MsgFound (List.length (read_data_lines f))]
                Hinit) as H.
  destruct (convert_rows _ _ _ _) as [st out]. exact H.
Qed.

(** Within each list the ids are 0, 1, ..., one less than its length,
    whatever rows were dropped. *)
Lemma ids_are_positions (csv_file : string) (f : list string) :
  all_dense (fst (load_marina_csv csv_file f)).
Proof.
  apply load_marina_csv_invariant.
  - apply try_row_dense.
  - repeat split.
Qed.

(** The waypoints of the three lists are made by the three constructors,
    each from a data row of the file. *)
Lemma loaded_waypoints_come_from_rows (csv_file : string) (f : list string) :
  from_rows (fst (load_marina_csv csv_file f)).
Proof.
  apply load_marina_csv_invariant.
  - apply try_row_from_rows.
  - repeat split; intros wp [].
Qed.

(** C10. For every input file the lengths of the three lists satisfy
    len(centerline) >= len(iqp) >= len(sp). *)
Theorem lengths_are_staggered (csv_file : string) (f : list string) :
  let t := fst (load_marina_csv csv_file f) in
  (List.length (sp t) <= List.length (iqp t)
   /\ List.length (iqp t) <= List.length (centerline t))%nat.
Proof.
  apply (load_marina_csv_invariant staggered).
  - apply try_row_staggered.
  - split; apply Nat.le_refl.
Qed.

End LoaderFacts.

(** C2, at a file of two rows of which the first has a non-numeric raw
    racing-line [x]: the centerline waypoint of that row is kept, its
    aggressive and moderate waypoints are not. The lists have lengths 2, 1
    and 1, and the valid second row is number 1 on the centerline and
    number 0 on the two others. *)
Theorem bad_row_is_kept_on_the_centerline :
  let t := fst (load_marina_csv (rt := Reference.runtime) "marina.csv"
                  [Samples.row_bad_x_rl; Samples.row]) in
  map id (centerline t) = [0; 1]%Z
  /\ map id (iqp t) = [0]%Z
  /\ map id (sp t) = [0]%Z
  /\ map x_m (centerline t) = [27; 27]%float.
Proof. vm_compute. repeat split. Qed.

(** ** Which columns a waypoint is made of *)

Section ProvenanceFacts.
Context {rt : PyRuntime}.

Ltac takes_from inv :=
  intros values wp H; apply inv in H;
  destruct H as (? & ? & ? & ? & ? & ? & ? & ? & ? &
                 ? & ? & ? & ? & ? & ? & ? & ? & ? & ->);
  cbn [s_m x_m y_m psi_rad kappa_radpm d_left d_right];
  match goal with
  | Hf : float_at values ?c = Ok ?v |- exists _, _ /\ py_float _ = Some ?v =>
      exact (float_at_inv values c v Hf)
  end.

(** C3, as the code has it. The centerline waypoint takes its arc length
    and every other geometric field from the reference-centerline
    columns ([s_m], [x_m], [y_m], [psi_rad], [kappa_radpm], [d_right],
    [d_left] from fields 26, 27, 28, 30, 33, 36, 37 of the row), the
    moderate (SP) waypoint from the reference-racing-line columns
    (fields 11, 12, 13, 15, 18, 21, 22). The aggressive (IQP) waypoint
    takes [x_m], [y_m] and [psi_rad] from the raw racing-line columns
    (fields 0, 1, 5), and [s_m], [kappa_radpm], [d_right] and [d_left]
    from the reference-racing-line columns (fields 11, 18, 21, 22). *)
Theorem frames_of_the_variants (i : Z) (speed_factor : float) :
  let cl := fun values => create_centerline_waypoint values i in
  let sp := fun values => create_sp_waypoint values i in
  let iqp := fun values => create_iqp_waypoint values i speed_factor in
  (takes cl s_m 26 /\ takes cl x_m 27 /\ takes cl y_m 28
   /\ takes cl psi_rad 30 /\ takes cl kappa_radpm 33
   /\ takes cl d_right 36 /\ takes cl d_left 37)
  /\ (takes sp s_m 11 /\ takes sp x_m 12 /\ takes sp y_m 13
      /\ takes sp psi_rad 15 /\ takes sp kappa_radpm 18
      /\ takes sp d_right 21 /\ takes sp d_left 22)
  /\ (takes iqp x_m 0 /\ takes iqp y_m 1 /\ takes iqp psi_rad 5)
  /\ (takes iqp s_m 11 /\ takes iqp kappa_radpm 18
      /\ takes iqp d_right 21 /\ takes iqp d_left 22)
  /\ Forall (fun k => frame_of_index k = ReferenceCenterline)
            [26; 27; 28; 30; 33; 36; 37]%nat
  /\ Forall (fun k => frame_of_index k = ReferenceRacingLine)
            [11; 12; 13; 15; 18; 21; 22]%nat
  /\ Forall (fun k => frame_of_index k = RawRacingLine) [0; 1; 5]%nat
  /\ (forall c, frame_of c = frame_of_index (column_mapping c))
  /\ in_frame cl ReferenceCenterline geometric_fields
  /\ in_frame sp ReferenceRacingLine geometric_fields
  /\ in_frame iqp RawRacingLine [x_m; y_m; psi_rad]
  /\ in_frame iqp ReferenceRacingLine [s_m; kappa_radpm; d_left; d_right].
Proof.
  intros cl sp iqp.
  split; [repeat split; takes_from create_centerline_waypoint_inv |].
  split; [repeat split; takes_from create_sp_waypoint_inv |].
  split; [repeat split; takes_from create_iqp_waypoint_inv |].
  split; [repeat split; takes_from create_iqp_waypoint_inv |].
  split; [repeat constructor |].
  split; [repeat constructor |].
  split; [repeat constructor |].
  split; [intros c; destruct c; reflexivity |].
  repeat split; intros field Hin; unfold geometric_fields in Hin.
  - destruct Hin as [<-|[<-|[<-|[<-|[<-|[<-|[<-|[]]]]]]]];
      [exists ref_cl_s_m | exists ref_cl_x_m | exists ref_cl_y_m
       | exists ref_cl_psi_rad | exists ref_cl_kappa_radpm
       | exists ref_cl_d_left | exists ref_cl_d_right];
      (split; [reflexivity |]); intros values wp H;
      apply create_centerline_waypoint_inv in H
        as (? & ? & ? & ? & ? & ? & ? & ? & ? &
            ? & ? & ? & ? & ? & ? & ? & ? & ? & ->); assumption.
  - destruct Hin as [<-|[<-|[<-|[<-|[<-|[<-|[<-|[]]]]]]]];
      [exists ref_rl_s_m | exists ref_rl_x_m | exists ref_rl_y_m
       | exists ref_rl_psi_rad | exists ref_rl_kappa_radpm
       | exists ref_rl_d_left | exists ref_rl_d_right];
      (split; [reflexivity |]); intros values wp H;
      apply create_sp_waypoint_inv in H
        as (? & ? & ? & ? & ? & ? & ? & ? & ? &
            ? & ? & ? & ? & ? & ? & ? & ? & ? & ->); assumption.
  - destruct Hin as [<-|[<-|[<-|[]]]];
      [exists rl_x_m | exists rl_y_m | exists rl_psi_rad];
      (split; [reflexivity |]); intros values wp H;
      apply create_iqp_waypoint_inv in H
        as (? & ? & ? & ? & ? & ? & ? & ? & ? &
            ? & ? & ? & ? & ? & ? & ? & ? & ? & ->); assumption.
  - destruct Hin as [<-|[<-|[<-|[<-|[]]]]];
      [exists ref_rl_s_m | exists ref_rl_kappa_radpm
       | exists ref_rl_d_left | exists ref_rl_d_right];
      (split; [reflexivity |]); intros values wp H;
      apply create_iqp_waypoint_inv in H
        as (? & ? & ? & ? & ? & ? & ? & ? & ? &
            ? & ? & ? & ? & ? & ? & ? & ? & ? & ->); assumption.
Qed.

End ProvenanceFacts.

(** On the sample row the number of a column is the column's index, so a
    field tells the column it was read from. *)
Lemma sample_row_tells_the_column (c : column) (k : float) (fr : frame) :
  (forall c', (PrimFloat.eqb
                 (match float_at (rt := Reference.runtime)
                          (split_values Samples.row) c' with
                  | Ok v => v
                  | Raise _ => (-1)%float
                  end) k = true) -> frame_of c' = fr) ->
  float_at (rt := Reference.runtime) (split_values Samples.row) c = Ok k ->
  PrimFloat.eqb k k = true ->
  frame_of c = fr.
Proof.
  intros Hall Hc Hk. apply Hall. rewrite Hc. exact Hk.
Qed.

(** C3 fails for the aggressive waypoint: on the sample row its [x_m] is
    the number of column 0, a raw racing-line column, and its [s_m] the
    number of column 11, a reference-racing-line column; no single frame
    holds both. *)
Lemma iqp_waypoint_mixes_frames :
  ~ one_frame (rt := Reference.runtime)
      (fun values =>
         create_iqp_waypoint (rt := Reference.runtime) values 0 1.0).
Proof.
  intros [fr Hfr].
  pose (values := split_values Samples.row).
  assert (Hwp : exists wp,
             create_iqp_waypoint (rt := Reference.runtime) values 0 1.0 = Ok wp
             /\ x_m wp = 0%float /\ s_m wp = 11%float)
    by (eexists; vm_compute; repeat split).
  destruct Hwp as (wp & Hwp & Hx & Hs).
  destruct (Hfr x_m) as (cx & Fx & Rx); [cbn; tauto |].
  destruct (Hfr s_m) as (cs & Fs & Rs); [cbn; tauto |].
  specialize (Rx values wp Hwp). specialize (Rs values wp Hwp).
  rewrite Hx in Rx. rewrite Hs in Rs.
  assert (Ex : frame_of cx = RawRacingLine).
  { apply (sample_row_tells_the_column cx 0%float); [| exact Rx | reflexivity].
    intros c'; destruct c'; vm_compute; intros E;
      reflexivity || discriminate E. }
  assert (Es : frame_of cs = ReferenceRacingLine).
  { apply (sample_row_tells_the_column cs 11%float); [| exact Rs | reflexivity].
    intros c'; destruct c'; vm_compute; intros E;
      reflexivity || discriminate E. }
  rewrite Fx in Ex. rewrite Fs in Es. rewrite Ex in Es. discriminate Es.
Qed.

(** ** The first loop of [load_marina_csv] *)

Lemma skip_condition_dec (l : string) :
  (match l with EmptyString => true | _ => false end
   || Text.startswith l "#"
   || (Text.startswith l "nan" || negb (Text.any_isdigit l))) = true
  <-> skip_condition l.
Proof.
  unfold skip_condition.
  rewrite !orb_true_iff, negb_true_iff.
  destruct l; intuition congruence.
Qed.

Lemma lstrip_head (s : string) :
  match Text.lstrip s with
  | EmptyString => True
  | String c _ => Text.isspace c = false
  end.
Proof.
  induction s as [| c t IH]; cbn [Text.lstrip]; [exact I |].
  destruct (Text.isspace c) eqn:E; [exact IH | exact E].
Qed.

Lemma rstrip_head (c : ascii) (t : string) :
  Text.isspace c = false ->
  exists t', Text.rstrip (String c t) = String c t'.
Proof.
  intros Hc. cbn [Text.rstrip]. rewrite Hc.
  destruct (Text.rstrip t); eexists; reflexivity.
Qed.

Lemma rstrip_rstrip (s : string) : Text.rstrip (Text.rstrip s) = Text.rstrip s.
Proof.
  induction s as [| c t IH]; [reflexivity |].
  cbn [Text.rstrip].
  destruct (Text.rstrip t) as [| d r] eqn:E.
  - destruct (Text.isspace c) eqn:Ec; [reflexivity |].
    cbn [Text.rstrip]. rewrite Ec. reflexivity.
  - cbn [Text.rstrip]. cbn [Text.rstrip] in IH.
    destruct (Text.rstrip r) as [| d' r'] eqn:Er.
    + destruct (Text.isspace d); [discriminate IH |]. rewrite IH. reflexivity.
    + rewrite IH. reflexivity.
Qed.

Lemma strip_strip (s : string) : Text.strip (Text.strip s) = Text.strip s.
Proof.
  unfold Text.strip.
  pose proof (lstrip_head s) as H.
  destruct (Text.lstrip s) as [| c t]; [reflexivity |].
  destruct (rstrip_head c t H) as [t' E]. rewrite E.
  cbn [Text.lstrip]. rewrite H, <- E. apply rstrip_rstrip.
Qed.

Lemma split_nonempty (sep : ascii) (s : string) : Text.split sep s <> [].
Proof.
  destruct s as [| c t]; cbn [Text.split]; [discriminate |].
  destruct (Ascii.eqb c sep); [discriminate |].
  destruct (Text.split sep t); discriminate.
Qed.

Lemma concat_split (sep : ascii) (s : string) :
  String.concat (String sep EmptyString) (Text.split sep s) = s.
Proof.
  induction s as [| c t IH]; [reflexivity |].
  cbn [Text.split].
  pose proof (split_nonempty sep t) as Hne.
  destruct (Ascii.eqb_spec c sep) as [-> | Hc].
  - destruct (Text.split sep t) as [| h r]; [contradiction Hne; reflexivity |].
    change (String.concat (String sep "") ("" :: h :: r))
      with (String sep (String.concat (String sep "") (h :: r))).
    rewrite IH. reflexivity.
  - destruct (Text.split sep t) as [| h r]; [contradiction Hne; reflexivity |].
    destruct r as [| x r'].
    + cbn in IH. cbn. rewrite IH. reflexivity.
    + change (String.concat (String sep "") (String c h :: x :: r'))
        with (String c (String.concat (String sep "") (h :: x :: r'))).
      rewrite IH. reflexivity.
Qed.

Lemma split_fields_have_no_separator (sep : ascii) (s : string) :
  Forall (fun field =>
            existsb (Ascii.eqb sep) (list_ascii_of_string field) = false)
         (Text.split sep s).
Proof.
  induction s as [| c t IH]; cbn [Text.split].
  - constructor; [reflexivity | constructor].
  - destruct (Ascii.eqb_spec c sep) as [-> | Hc].
    + constructor; [reflexivity | exact IH].
    + destruct (Text.split sep t) as [| h r]; [repeat constructor |].
      * cbn. destruct (Ascii.eqb_spec sep c); [congruence | reflexivity].
      * inversion IH as [| ? ? Hh Hr]; subst.
        constructor; [| exact Hr].
        cbn. rewrite Hh.
        destruct (Ascii.eqb_spec sep c); [congruence | reflexivity].
Qed.

Lemma row_fields (l : string) : row_fields_rule l.
Proof.
  unfold row_fields_rule, split_values.
  split; [apply (concat_split ","%char) |].
  split; [apply (split_fields_have_no_separator ","%char) |].
  split; [reflexivity |].
  apply Forall_forall. intros v Hv.
  apply in_map_iff in Hv as (field & <- & _). apply strip_strip.
Qed.

(** C4, as the code has it. A stripped line is skipped exactly when it is
    empty, begins with [#], begins with [nan], or has no digit; every
    other line is kept, stripped and in order, as a data row. The row
    loop hands the constructors the fields of a data row: the pieces
    between its commas, each stripped. *)
Theorem lines_skipped_and_kept {rt : PyRuntime} (line : string)
  (rest : list string) :
  row_parser_rule line rest
  /\ row_fields_rule (Text.strip line)
  /\ forall st,
       match create_centerline_waypoint
               (map Text.strip (Text.split "," (Text.strip line)))
               (len (centerline st)) with
       | Raise e => try_row st (Text.strip line) = (st, Some e)
       | Ok wp =>
           centerline (fst (try_row st (Text.strip line)))
           = centerline st ++ [wp]
       end.
Proof.
  split; [| split; [apply row_fields |]].
  - unfold row_parser_rule.
    pose proof (skip_condition_dec (Text.strip line)) as Hdec.
    cbn [read_data_lines].
    destruct (match Text.strip line with EmptyString => true | _ => false end
              || Text.startswith (Text.strip line) "#") eqn:E1.
    + left. split; [apply Hdec; reflexivity | reflexivity].
    + destruct (Text.startswith (Text.strip line) "nan"
                || negb (Text.any_isdigit (Text.strip line))) eqn:E2.
      * left. split; [apply Hdec; reflexivity | reflexivity].
      * right. split; [| reflexivity].
        intros H. apply Hdec in H. discriminate H.
  - intros st. unfold try_row, split_values.
    destruct (create_centerline_waypoint _ _) as [wp | e]; [| reflexivity].
    destruct (create_iqp_waypoint _ _ _); [| reflexivity].
    destruct (create_sp_waypoint _ _); reflexivity.
Qed.

(** C4 fails at a line that begins with [nan] and has digits: it meets
    none of the three reasons and is skipped all the same. *)
Lemma nan_first_line_is_skipped :
  ~ three_reasons_rule Samples.row_nan_first [].
Proof.
  unfold three_reasons_rule, three_reasons.
  intros [[[H | [H | H]] _] | [_ H]]; vm_compute in H; discriminate H.
Qed.

(** ** The overtaking sectors *)

(** C6, as the code has it. For a centerline of [N >= 1] waypoints the
    two sectors are the index ranges [0 .. N/2] and [N/2+1 .. N-1], both
    with [ot_flag] false. They do not overlap and together cover
    [0 .. N-1]. Their sizes are [N/2 + 1] and [N - 1 - N/2]: the first is
    larger by 2 when [N] is even and by 1 when [N] is odd. *)
Theorem overtaking_sectors_split (waypoints : list Waypoint) :
  let N := len waypoints in
  let doc := create_ot_sectors_yaml waypoints in
  (1 <= N)%Z ->
  getitem doc "n_sectors" = Ok (PInt 2)
  /\ sector doc "Overtaking_sector0" = Ok (PInt 0, PInt (N / 2), PBool false)
  /\ sector doc "Overtaking_sector1"
     = Ok (PInt (N / 2 + 1), PInt (N - 1), PBool false)
  /\ (forall i, 0 <= i <= N - 1
                <-> (0 <= i <= N / 2 \/ N / 2 + 1 <= i <= N - 1))%Z
  /\ (forall i, ~ (0 <= i <= N / 2 /\ N / 2 + 1 <= i <= N - 1))%Z
  /\ range_size 0 (N / 2) = (N / 2 + 1)%Z
  /\ range_size (N / 2 + 1) (N - 1) = (N - 1 - N / 2)%Z
  /\ (range_size 0 (N / 2) - range_size (N / 2 + 1) (N - 1)
      = if Z.even N then 2 else 1)%Z.
Proof.
  intros N doc HN.
  assert (Hdiv : (N = 2 * (N / 2) + N mod 2)%Z) by (apply Z.div_mod; lia).
  assert (Hmod : (0 <= N mod 2 < 2)%Z) by (apply Z.mod_pos_bound; lia).
  assert (Heven : Z.even N = (N mod 2 =? 0)%Z)
    by (rewrite Zmod_even; destruct (Z.even N); reflexivity).
  repeat split; try reflexivity; unfold range_size; try lia.
  rewrite Heven. destruct (Z.eqb_spec (N mod 2) 0); lia.
Qed.

Lemma overtaking_sectors_split_witness :
  let N := len Samples.four_waypoints in
  (1 <= N)%Z
  /\ sector (create_ot_sectors_yaml Samples.four_waypoints)
            "Overtaking_sector0" = Ok (PInt 0, PInt (N / 2), PBool false)
  /\ sector (create_ot_sectors_yaml Samples.four_waypoints)
            "Overtaking_sector1"
     = Ok (PInt (N / 2 + 1), PInt (N - 1), PBool false).
Proof.
  intros N.
  assert (HN : (1 <= N)%Z) by (vm_compute; discriminate).
  split; [exact HN |].
  pose proof (overtaking_sectors_split Samples.four_waypoints HN) as H.
  split; [exact (proj1 (proj2 H)) | exact (proj1 (proj2 (proj2 H)))].
Defined.

(** C6 fails for "of equal size": with four waypoints the sectors are
    [0 .. 2] and [3 .. 3], three indices and one. *)
Lemma four_waypoints_make_unequal_sectors :
  ~ equal_halves (create_ot_sectors_yaml Samples.four_waypoints).
Proof.
  intros (s0 & e0 & f0 & s1 & e1 & f1 & H0 & H1 & Hsize).
  vm_compute in H0. vm_compute in H1.
  injection H0 as <- <- _. injection H1 as <- <- _.
  vm_compute in Hsize. discriminate Hsize.
Qed.

(** ** The waypoint array, written and read back *)

Lemma column_of_wpnt_msg (k : string) (field : Waypoint -> pyval)
  (waypoints : list Waypoint) :
  (forall wp, getitem (wpnt_msg wp) k = Ok (field wp)) ->
  PlotRaceline.column_of k (map wpnt_msg waypoints) = Ok (map field waypoints).
Proof.
  intros Hk. induction waypoints as [| wp rest IH]; cbn [map PlotRaceline.column_of].
  - reflexivity.
  - rewrite Hk, IH. reflexivity.
Qed.

(** C7. The block [create_waypoint_array] builds, read as the plotting
    utility reads it ([wpnts], then [x_m], [y_m], [vx_mps] and [s_m] of
    each entry), gives back these four fields of every waypoint, in
    order. The document is the value tree handed to [json.dump] and
    returned by [json.load]. *)
Theorem waypoint_array_round_trip (waypoints : list Waypoint) :
  exists wpnts,
    getitem (create_waypoint_array waypoints) "wpnts" = Ok wpnts
    /\ PlotRaceline.extract_coordinates_and_speeds wpnts
       = Ok (map (fun wp => PFloat (x_m wp)) waypoints,
             map (fun wp => PFloat (y_m wp)) waypoints,
             map (fun wp => PFloat (vx_mps wp)) waypoints)
    /\ PlotRaceline.arc_lengths wpnts
       = Ok (map (fun wp => PFloat (s_m wp)) waypoints).
Proof.
  eexists. split; [reflexivity |].
  unfold PlotRaceline.extract_coordinates_and_speeds, PlotRaceline.arc_lengths.
  cbn [PlotRaceline.items bind].
  rewrite (column_of_wpnt_msg "x_m" (fun wp => PFloat (x_m wp)))
    by reflexivity.
  rewrite (column_of_wpnt_msg "y_m" (fun wp => PFloat (y_m wp)))
    by reflexivity.
  rewrite (column_of_wpnt_msg "vx_mps" (fun wp => PFloat (vx_mps wp)))
    by reflexivity.
  rewrite (column_of_wpnt_msg "s_m" (fun wp => PFloat (s_m wp)))
    by reflexivity.
  split; reflexivity.
Qed.

(** The three arrays of the whole document are found where
    [load_waypoints_data] looks for them. *)
Lemma load_waypoints_data_of_document {rt : PyRuntime} (t : trajectories)
  (doc : pyval) :
  create_global_waypoints_json t = Ok doc ->
  exists markers,
    trackbounds_marker_list (iqp t) = Ok markers
    /\ PlotRaceline.load_waypoints_data doc
       = Ok (PList (map wpnt_msg (centerline t)),
             PList (map wpnt_msg (iqp t)),
             PList (map wpnt_msg (sp t)),
             PList markers).
Proof.
  unfold create_global_waypoints_json, create_trackbounds_markers. intros H.
  destruct (py_max (map vx_mps (iqp t))); [| discriminate H].
  destruct (py_max (map vx_mps (sp t))); [| discriminate H].
  cbn [bind] in H.
  destruct (trackbounds_marker_list (iqp t)) as [markers |];
    [| discriminate H].
  cbn [bind] in H. injection H as <-.
  exists markers. split; reflexivity.
Qed.

(** ** A run without a valid row *)


Lemma file_effects_prints (printed : list message) :
  file_effects (map Print printed) = [].
Proof. induction printed as [| m rest IH]; [reflexivity | exact IH]. Qed.


Section RunFacts.
Context {rt : PyRuntime} {fs : FileSystem}.

Lemma no_speed_no_document (t : trajectories) :
  sp t = [] -> create_global_waypoints_json t = Raise ValueError.
Proof.
  intros Hsp. unfold create_global_waypoints_json. rewrite Hsp.
  destruct (py_max (map vx_mps (iqp t))) as [m | e] eqn:E; cbn;
    [reflexivity |].
  destruct (iqp t); [| discriminate E]. injection E as <-. reflexivity.
Qed.

Lemma loaded_log_prints (csv_file : string) (f : list string) :
  file_effects (loaded_log csv_file f) = []
  /\ forall e, In e (loaded_log csv_file f) -> is_print e.
Proof.
  unfold loaded_log. split.
  - apply file_effects_prints.
  - intros e [<- | He]; [eexists; reflexivity |].
    apply in_map_iff in He as (m & <- & _). eexists; reflexivity.
Qed.

Lemma parse_without_waypoints (csv_file output_name : string)
  (f : list string) (source_exists : bool) :
  centerline (fst (load_marina_csv csv_file f)) = [] ->
  parse csv_file output_name f source_exists
  = (loaded_log csv_file f ++ [Print MsgErrorNoWaypoints], Ok false).
Proof.
  unfold parse, loaded_log.
  destruct (load_marina_csv csv_file f) as [t printed]. cbn [fst snd].
  intros ->. reflexivity.
Qed.

Lemma parse_directory_refused (csv_file output_name : string)
  (f : list string) (source_exists : bool) :
  centerline (fst (load_marina_csv csv_file f)) <> [] ->
  carried_out [] (MakeDirs (path_join base_path output_name)) = false ->
  parse csv_file output_name f source_exists
  = (loaded_log csv_file f, Raise OSError).
Proof.
  pose proof (proj1 (loaded_log_prints csv_file f)) as Hlog.
  unfold parse, loaded_log in *.
  destruct (load_marina_csv csv_file f) as [t printed]. cbn [fst snd] in *.
  intros Hc Hdir.
  destruct (centerline t) as [| w rest]; [contradiction Hc; reflexivity |].
  unfold io_bind at 1 2. cbn [print prints app].
  unfold io_bind at 1. unfold create_output_directory.
  unfold io_bind at 1. unfold perform.
  rewrite Hlog, Hdir. reflexivity.
Qed.

Lemma parse_document_refused (csv_file output_name : string)
  (f : list string) (source_exists : bool) (e : exn) :
  centerline (fst (load_marina_csv csv_file f)) <> [] ->
  carried_out [] (MakeDirs (path_join base_path output_name)) = true ->
  create_global_waypoints_json (fst (load_marina_csv csv_file f)) = Raise e ->
  parse csv_file output_name f source_exists
  = (((loaded_log csv_file f
       ++ [MakeDirs (path_join base_path output_name)])
      ++ [Print (MsgCreatedDirectory (path_join base_path output_name))])
     ++ [Print MsgCreatingFiles], Raise e).
Proof.
  pose proof (proj1 (loaded_log_prints csv_file f)) as Hlog.
  unfold parse, loaded_log in *.
  destruct (load_marina_csv csv_file f) as [t printed]. cbn [fst snd] in *.
  intros Hc Hdir Hdoc.
  destruct (centerline t) as [| w rest]; [contradiction Hc; reflexivity |].
  unfold io_bind at 1 2. cbn [print prints app].
  unfold io_bind at 1. unfold create_output_directory.
  unfold io_bind at 1. unfold perform.
  rewrite Hlog, Hdir.
  unfold io_bind at 1. cbn [print io_ret].
  unfold io_bind at 1. cbn [print].
  unfold io_bind at 1. unfold lift. rewrite Hdoc. reflexivity.
Qed.


(** C9. When no row of the file is converted (the moderate list, the
    last one a row is appended to, is empty), [main] returns exit code 1,
    an error is reported, and no file is put into the output directory.
    When the centerline list is empty, [parse] reports that no waypoints
    could be parsed and returns [False] before anything but printing is
    done. *)
Theorem no_valid_row_is_fatal (csv_file output_name : string)
  (f : list string) (source_exists : bool) :
  sp (fst (load_marina_csv csv_file f)) = [] ->
  exists out,
    main csv_file output_name (Some f) source_exists = (out, 1%Z)
    /\ (exists e, In e out /\ is_error_report e)
    /\ (forall e, In e out -> ~ writes_file e)
    /\ (centerline (fst (load_marina_csv csv_file f)) = [] ->
        parse csv_file output_name f source_exists = (out, Ok false)
        /\ In (Print MsgErrorNoWaypoints) out
        /\ forall e, In e out -> is_print e).
Proof.
  intros Hsp. unfold main.
  destruct (loaded_log_prints csv_file f) as [_ Hprints].
  assert (Hquiet : forall e, In e (loaded_log csv_file f) -> ~ writes_file e).
  { intros e He. destruct (Hprints e He) as [m ->]. exact (fun x => x). }
  destruct (centerline (fst (load_marina_csv csv_file f))) as [| w rest] eqn:Hcl.
  - rewrite (parse_without_waypoints _ _ _ _ Hcl).
    eexists. split; [reflexivity |].
    split; [| split; [| intros _; split; [reflexivity | split]]].
    + exists (Print MsgErrorNoWaypoints).
      split; [apply in_or_app; right; left; reflexivity | left; reflexivity].
    + intros e He. apply in_app_or in He as [He | [<- | []]];
        [exact (Hquiet e He) | exact (fun x => x)].
    + apply in_or_app; right; left; reflexivity.
    + intros e He. apply in_app_or in He as [He | [<- | []]];
        [exact (Hprints e He) | eexists; reflexivity].
  - assert (Hne : centerline (fst (load_marina_csv csv_file f)) <> [])
      by (rewrite Hcl; discriminate).
    destruct (carried_out [] (MakeDirs (path_join base_path output_name)))
      eqn:Hdir.
    + rewrite (parse_document_refused _ _ _ _ ValueError Hne Hdir
                 (no_speed_no_document _ Hsp)).
      eexists. split; [reflexivity |].
      split; [| split; [| intros Habs; discriminate Habs]].
      * exists (Print (MsgError ValueError)).
        split; [apply in_or_app; right; left; reflexivity
               | right; eexists; reflexivity].
      * intros e He.
        repeat (apply in_app_or in He as [He | [<- | []]];
                [| exact (fun x => x)]).
        exact (Hquiet e He).
    + rewrite (parse_directory_refused _ _ _ _ Hne Hdir).
      eexists. split; [reflexivity |].
      split; [| split; [| intros Habs; discriminate Habs]].
      * exists (Print (MsgError OSError)).
        split; [apply in_or_app; right; left; reflexivity
               | right; eexists; reflexivity].
      * intros e He. apply in_app_or in He as [He | [<- | []]];
          [exact (Hquiet e He) | exact (fun x => x)].
Qed.

End RunFacts.

(** A file whose only row fails after its centerline waypoint was
    appended: the directory is made, then [max] of the empty aggressive
    list raises and the run ends with exit code 1. *)
Example run_on_a_half_converted_row :
  main (rt := Reference.runtime) (fs := Reference.obliging)
       "marina.csv" "marina" (Some [Samples.row_bad_x_rl]) true
  = ([Print MsgBanner; Print (MsgLoading "marina.csv"); Print (MsgFound 1);
      Print (MsgWarning 0 ValueError); Print (MsgParsed 1);
      MakeDirs (path_join base_path "marina");
      Print (MsgCreatedDirectory (path_join base_path "marina"));
      Print MsgCreatingFiles; Print (MsgError ValueError)], 1%Z).
Proof. vm_compute. reflexivity. Qed.

(** A file whose only row converts in full but has an infinite heading:
    [math.sin] raises while the boundary markers are made, nothing is
    written, and the exit code is 1. *)
Example run_on_an_infinite_heading :
  main (rt := Reference.runtime) (fs := Reference.obliging)
       "marina.csv" "marina" (Some [Samples.row_inf_heading]) true
  = ([Print MsgBanner; Print (MsgLoading "marina.csv"); Print (MsgFound 1);
      Print (MsgParsed 1);
      MakeDirs (path_join base_path "marina");
      Print (MsgCreatedDirectory (path_join base_path "marina"));
      Print MsgCreatingFiles; Print (MsgError ValueError)], 1%Z).
Proof. vm_compute. reflexivity. Qed.

(** With the output name [a/b] the map file would go to [a/b/a/b.yaml],
    into a directory the run has not made: after the waypoint document
    the run stops with [OSError] and exit code 1. *)
Example run_with_a_nested_output_name :
  let r := main (rt := Reference.runtime) (fs := Reference.fresh_disk)
                "marina.csv" "a/b" (Some [Samples.row]) false in
  snd r = 1%Z
  /\ map (fun e => match e with
                   | WriteJson p _ | WriteYaml p _ | MakeDirs p => p
                   | _ => ""
                   end) (file_effects (fst r))
     = [path_join base_path "a/b";
        path_join (path_join base_path "a/b") "global_waypoints.json"]
  /\ last (fst r) (Print MsgBanner) = Print (MsgError OSError).
Proof. vm_compute. repeat split. Qed.

(** With the output name [f] and the placeholder in place, the image
    would be copied onto itself: the four documents are written, then
    the run stops with [OSError] and exit code 1. *)
Example run_onto_the_placeholder :
  let r := main (rt := Reference.runtime) (fs := Reference.fresh_disk)
                "marina.csv" "f" (Some [Samples.row]) true in
  snd r = 1%Z
  /\ map (fun e => match e with
                   | WriteJson p _ | WriteYaml p _ | MakeDirs p => p
                   | _ => ""
                   end) (file_effects (fst r))
     = [path_join base_path "f";
        path_join (path_join base_path "f") "global_waypoints.json";
        path_join (path_join base_path "f") "f.yaml";
        path_join (path_join base_path "f") "ot_sectors.yaml";
        path_join (path_join base_path "f") "speed_scaling.yaml"]
  /\ path_join (path_join base_path "f") "f.png" = source_image
  /\ last (fst r) (Print MsgBanner) = Print (MsgError OSError).
Proof. vm_compute. repeat split. Qed.

Lemma no_valid_row_is_fatal_witness :
  sp (fst (load_marina_csv (rt := Reference.runtime) "marina.csv"
             ["# x_rl_m,y_rl_m"; ""; "nan,nan,nan"; Samples.row_nan_first]))
  = []
  /\ exists out,
       main (rt := Reference.runtime) (fs := Reference.obliging)
            "marina.csv" "marina"
            (Some ["# x_rl_m,y_rl_m"; ""; "nan,nan,nan"; Samples.row_nan_first])
            true = (out, 1%Z)
       /\ (exists e, In e out /\ is_error_report e)
       /\ (forall e, In e out -> ~ writes_file e).
Proof.
  assert (H : sp (fst (load_marina_csv (rt := Reference.runtime) "marina.csv"
             ["# x_rl_m,y_rl_m"; ""; "nan,nan,nan"; Samples.row_nan_first]))
              = []) by (vm_compute; reflexivity).
  split; [exact H |].
  destruct (no_valid_row_is_fatal (rt := Reference.runtime)
              (fs := Reference.obliging) "marina.csv"
              "marina" _ true H) as (out & Hmain & Herr & Hw & _).
  exists out. split; [exact Hmain | split; [exact Herr | exact Hw]].
Defined.

(** ** The track-boundary markers *)

Lemma every_from_length {A : Type} (step : nat) (l : list A) (skip : nat) :
  (skip < step)%nat ->
  (step * List.length (every_from step skip l) + skip
   <= List.length l + (step - 1))%nat.
Proof.
  intros Hstep. revert skip Hstep.
  induction l as [| x t IH]; intros skip Hskip; cbn [every_from List.length].
  - lia.
  - destruct skip as [| k].
    + cbn [List.length]. specialize (IH (step - 1)%nat ltac:(lia)). nia.
    + specialize (IH k ltac:(lia)). lia.
Qed.

(** At most 399 waypoints are sampled, however long the list. *)
Lemma sampled_for_bounds_length (waypoints : list Waypoint) :
  (List.length (sampled_for_bounds waypoints) <= 399)%nat.
Proof.
  unfold sampled_for_bounds, slice_step.
  set (N := List.length waypoints).
  set (step := Nat.max 1 (N / 200)).
  pose proof (every_from_length step waypoints 0%nat) as H.
  fold N in H.
  assert (Hstep : (1 <= step)%nat) by (unfold step; lia).
  specialize (H ltac:(lia)).
  set (L := List.length (every_from step 0 waypoints)) in *.
  pose proof (Nat.div_mod_eq N 200) as Hdiv.
  pose proof (Nat.mod_upper_bound N 200 ltac:(lia)) as Hmod.
  destruct (Nat.le_gt_cases 1 (N / 200)) as [Hbig | Hsmall].
  - assert (step = (N / 200)%nat) by (unfold step; lia). nia.
  - assert (step = 1%nat) by (unfold step; lia). nia.
Qed.

Lemma nth_error_combine_seq {A : Type} (l : list A) (s i : nat) :
  nth_error (combine (seq s (List.length l)) l) i
  = option_map (fun x => ((s + i)%nat, x)) (nth_error l i).
Proof.
  revert s i. induction l as [| x t IH]; intros s i; cbn.
  - destruct i; reflexivity.
  - destruct i as [| i]; cbn.
    + rewrite Nat.add_0_r. reflexivity.
    + rewrite IH. rewrite Nat.add_succ_r. reflexivity.
Qed.

Lemma nth_error_enumerate {A : Type} (l : list A) (i : nat) :
  nth_error (enumerate l) i = option_map (fun x => (i, x)) (nth_error l i).
Proof. unfold enumerate. apply nth_error_combine_seq. Qed.

Lemma enumerate_length {A : Type} (l : list A) :
  List.length (enumerate l) = List.length l.
Proof.
  unfold enumerate. rewrite length_combine, length_seq. apply Nat.min_id.
Qed.

Lemma in_enumerate {A : Type} (l : list A) (i : nat) (x : A) :
  In (i, x) (enumerate l) -> (i < List.length l)%nat.
Proof.
  unfold enumerate. intros H. apply in_combine_l in H.
  apply in_seq in H. lia.
Qed.

Lemma Forall2_nth_error {A B : Type} (R : A -> B -> Prop) (l : list A)
  (l' : list B) (i : nat) (x : A) :
  Forall2 R l l' -> nth_error l i = Some x ->
  exists y, nth_error l' i = Some y /\ R x y.
Proof.
  intros H. revert i. induction H as [| a b l l' Hab _ IH]; intros i Hi.
  - destruct i; discriminate Hi.
  - destruct i as [| i]; cbn in *.
    + injection Hi as <-. exists b. split; [reflexivity | exact Hab].
    + exact (IH i Hi).
Qed.

Lemma nth_error_combine {A B : Type} (l : list A) (l' : list B) (i : nat)
  (x : A) (y : B) :
  nth_error l i = Some x -> nth_error l' i = Some y ->
  nth_error (combine l l') i = Some (x, y).
Proof.
  revert l' i. induction l as [| a l IH]; intros l' i Hx Hy.
  - destruct i; discriminate Hx.
  - destruct l' as [| b l']; [destruct i; discriminate Hy |].
    destruct i as [| i]; cbn in *.
    + injection Hx as <-. injection Hy as <-. reflexivity.
    + exact (IH l' i Hx Hy).
Qed.

Section MarkerFacts.
Context {rt : PyRuntime}.

Lemma trackbounds_marker_left_inv (i : nat) (wp : Waypoint) (m : pyval) :
  trackbounds_marker "left" boundary_color i wp = Ok m ->
  exists p, math_sin (psi_rad wp) = Some (fst p)
            /\ math_cos (psi_rad wp) = Some (snd p)
            /\ m = left_marker i wp p.
Proof.
  unfold trackbounds_marker, sin_of, cos_of, left_marker.
  cbn [String.eqb Ascii.eqb Bool.eqb].
  destruct (math_sin (psi_rad wp)) as [s |]; [| discriminate].
  destruct (math_cos (psi_rad wp)) as [c |]; [| discriminate].
  cbn. intros H. injection H as <-. exists (s, c). cbn [fst snd].
  rewrite float_add_mul_m1. repeat split.
Qed.

Lemma trackbounds_marker_left_ok (i : nat) (wp : Waypoint) (p : float * float) :
  math_sin (psi_rad wp) = Some (fst p) ->
  math_cos (psi_rad wp) = Some (snd p) ->
  trackbounds_marker "left" boundary_color i wp = Ok (left_marker i wp p).
Proof.
  unfold trackbounds_marker, sin_of, cos_of, left_marker.
  cbn [String.eqb Ascii.eqb Bool.eqb]. intros -> ->. cbn.
  rewrite float_add_mul_m1. reflexivity.
Qed.

Lemma trackbounds_marker_right_ok (i : nat) (wp : Waypoint)
  (p : float * float) :
  math_sin (psi_rad wp) = Some (fst p) ->
  math_cos (psi_rad wp) = Some (snd p) ->
  trackbounds_marker "right" boundary_color i wp = Ok (right_marker i wp p).
Proof.
  unfold trackbounds_marker, sin_of, cos_of, right_marker.
  cbn [String.eqb Ascii.eqb Bool.eqb]. intros -> ->. cbn.
  rewrite float_add_mul_m1. reflexivity.
Qed.

Lemma left_pass_resolves (l : list Waypoint) :
  forall n lefts,
    map_result (fun '(i, wp) => trackbounds_marker "left" boundary_color i wp)
               (combine (seq n (List.length l)) l) = Ok lefts ->
    exists sc, headings_resolve l sc.
Proof.
  induction l as [| wp rest IH]; intros n lefts H.
  - exists []. constructor.
  - cbn [List.length seq combine map_result] in H.
    destruct (trackbounds_marker "left" boundary_color n wp) as [m |] eqn:Em;
      [| discriminate H].
    cbn [bind] in H.
    destruct (map_result _ (combine (seq (S n) (List.length rest)) rest))
      as [ms |] eqn:Ems; [| discriminate H].
    destruct (IH (S n) ms Ems) as [sc Hsc].
    apply trackbounds_marker_left_inv in Em as (p & Hs & Hc & _).
    exists (p :: sc). constructor; [split; assumption | exact Hsc].
Qed.

Lemma pass_of_resolved (l : list Waypoint) (sc : list (float * float)) :
  headings_resolve l sc ->
  forall n,
    map_result (fun '(i, wp) => trackbounds_marker "left" boundary_color i wp)
               (combine (seq n (List.length l)) l)
    = Ok (map (fun '(i, (wp, p)) => left_marker i wp p)
              (combine (seq n (List.length (combine l sc))) (combine l sc)))
    /\ map_result
         (fun '(i, wp) => trackbounds_marker "right" boundary_color i wp)
         (combine (seq n (List.length l)) l)
       = Ok (map (fun '(i, (wp, p)) => right_marker i wp p)
                 (combine (seq n (List.length (combine l sc))) (combine l sc))).
Proof.
  induction 1 as [| wp p l sc [Hs Hc] _ IH]; intros n; [split; reflexivity |].
  destruct (IH (S n)) as [IHl IHr].
  cbn [List.length seq combine map_result map].
  rewrite (trackbounds_marker_left_ok n wp p Hs Hc),
          (trackbounds_marker_right_ok n wp p Hs Hc), IHl, IHr.
  split; reflexivity.
Qed.

Lemma resolved_length (l : list Waypoint) (sc : list (float * float)) :
  headings_resolve l sc -> List.length (combine l sc) = List.length l.
Proof.
  intros H. rewrite length_combine, <- (Forall2_length H). apply Nat.min_id.
Qed.

(** The list of markers is built exactly when sine and cosine return on
    every sampled heading; it is then the left markers followed by the
    right markers, each over the sample with its positions. *)
Lemma trackbounds_marker_list_ok (waypoints : list Waypoint)
  (sc : list (float * float)) :
  headings_resolve (sampled_for_bounds waypoints) sc ->
  trackbounds_marker_list waypoints
  = Ok (map (fun '(i, (wp, p)) => left_marker i wp p)
            (enumerate (combine (sampled_for_bounds waypoints) sc))
        ++ map (fun '(i, (wp, p)) => right_marker i wp p)
               (enumerate (combine (sampled_for_bounds waypoints) sc))).
Proof.
  intros Hsc. unfold trackbounds_marker_list, enumerate.
  fold (sampled_for_bounds waypoints).
  destruct (pass_of_resolved _ _ Hsc 0%nat) as [Hl Hr].
  cbn [map_result]. rewrite Hl. cbn [bind]. rewrite Hr. cbn [bind List.concat].
  rewrite app_nil_r. reflexivity.
Qed.

Lemma trackbounds_marker_list_inv (waypoints : list Waypoint)
  (markers : list pyval) :
  trackbounds_marker_list waypoints = Ok markers ->
  exists sc,
    headings_resolve (sampled_for_bounds waypoints) sc
    /\ markers
       = map (fun '(i, (wp, p)) => left_marker i wp p)
             (enumerate (combine (sampled_for_bounds waypoints) sc))
         ++ map (fun '(i, (wp, p)) => right_marker i wp p)
                (enumerate (combine (sampled_for_bounds waypoints) sc)).
Proof.
  intros H.
  assert (Hsc : exists sc, headings_resolve (sampled_for_bounds waypoints) sc).
  { unfold trackbounds_marker_list, enumerate in H.
    fold (sampled_for_bounds waypoints) in H.
    cbn [map_result] in H.
    destruct (map_result
                (fun '(i, wp) => trackbounds_marker "left" boundary_color i wp)
                _) as [lefts |] eqn:El; [| discriminate H].
    exact (left_pass_resolves _ _ _ El). }
  destruct Hsc as [sc Hsc]. exists sc. split; [exact Hsc |].
  rewrite (trackbounds_marker_list_ok _ _ Hsc) in H. injection H as <-.
  reflexivity.
Qed.

Lemma nth_error_markers (waypoints : list Waypoint) (sc : list (float * float))
  (i : nat) (wp : Waypoint) :
  let sampled := sampled_for_bounds waypoints in
  let markers :=
    map (fun '(i, (wp, p)) => left_marker i wp p)
        (enumerate (combine sampled sc))
    ++ map (fun '(i, (wp, p)) => right_marker i wp p)
           (enumerate (combine sampled sc)) in
  headings_resolve sampled sc ->
  nth_error sampled i = Some wp ->
  exists p,
    math_sin (psi_rad wp) = Some (fst p)
    /\ math_cos (psi_rad wp) = Some (snd p)
    /\ nth_error markers i = Some (left_marker i wp p)
    /\ nth_error markers (List.length sampled + i)
       = Some (right_marker i wp p).
Proof.
  intros sampled markers Hsc Hi.
  destruct (Forall2_nth_error _ _ _ _ _ Hsc Hi) as (p & Hp & Hs & Hc).
  pose proof (nth_error_combine _ _ _ _ _ Hi Hp) as Hcomb.
  pose proof (resolved_length _ _ Hsc) as Hlen. fold sampled in Hlen.
  assert (Hlt : (i < List.length sampled)%nat)
    by (apply nth_error_Some; rewrite Hi; discriminate).
  exists p. split; [exact Hs |]. split; [exact Hc |]. unfold markers. split.
  - rewrite nth_error_app1 by (rewrite length_map, enumerate_length; lia).
    rewrite nth_error_map, nth_error_enumerate, Hcomb. reflexivity.
  - rewrite nth_error_app2 by (rewrite length_map, enumerate_length; lia).
    rewrite length_map, enumerate_length, Hlen.
    replace (List.length sampled + i - List.length sampled)%nat with i by lia.
    rewrite nth_error_map, nth_error_enumerate, Hcomb. reflexivity.
Qed.

End MarkerFacts.

Section MarkerProperties.
Context {rt : PyRuntime}.

(** C5. When the markers are generated ([math.sin] and [math.cos] return
    on the sampled headings), for the waypoint [wp] at place [i] of the
    sample the list holds a left marker at
    [(x - d_left * sin psi, y + d_left * cos psi)] and a right marker at
    [(x + d_right * sin psi, y - d_right * cos psi)], in binary64
    arithmetic. With [sin 0 = 0] and [cos 0 = 1], a waypoint with
    [psi_rad = 0] and [d_left = d_right = 2] has its left marker at
    [(x, y + 2)] and its right marker at [(x, y - 2)]; the right [x] is
    computed as [x + 0], which is [x] except that it is [+0] for
    [x = -0]. *)
Theorem boundary_marker_positions (waypoints : list Waypoint)
  (markers : list pyval) (i : nat) (wp : Waypoint) :
  let sampled := sampled_for_bounds waypoints in
  trackbounds_marker_list waypoints = Ok markers ->
  nth_error sampled i = Some wp ->
  exists s c left right,
    math_sin (psi_rad wp) = Some s
    /\ math_cos (psi_rad wp) = Some c
    /\ nth_error markers i = Some left
    /\ nth_error markers (List.length sampled + i) = Some right
    /\ getitem left "ns" = Ok (PStr "trackbounds_left")
    /\ getitem right "ns" = Ok (PStr "trackbounds_right")
    /\ marker_position left
       = Ok (PFloat (x_m wp - d_left wp * s), PFloat (y_m wp + d_left wp * c))
    /\ marker_position right
       = Ok (PFloat (x_m wp + d_right wp * s),
             PFloat (y_m wp - d_right wp * c))
    /\ (math_sin 0 = Some 0%float -> math_cos 0 = Some 1%float ->
        psi_rad wp = 0%float -> d_left wp = 2%float -> d_right wp = 2%float ->
        marker_position left = Ok (PFloat (x_m wp), PFloat (y_m wp + 2))
        /\ exists x',
             marker_position right = Ok (PFloat x', PFloat (y_m wp - 2))
             /\ same_coordinate x' (x_m wp)).
Proof.
  intros sampled Hlist Hi.
  apply trackbounds_marker_list_inv in Hlist as (sc & Hsc & ->).
  destruct (nth_error_markers waypoints sc i wp Hsc Hi)
    as ([s c] & Hs & Hc & Hl & Hr).
  cbn [fst snd] in *.
  exists s, c, (left_marker i wp (s, c)), (right_marker i wp (s, c)).
  split; [exact Hs |]. split; [exact Hc |].
  split; [exact Hl |]. split; [exact Hr |].
  repeat (split; [reflexivity |]).
  intros Hsin Hcos Hpsi Hdl Hdr.
  rewrite Hpsi, Hsin in Hs. injection Hs as <-.
  rewrite Hpsi, Hcos in Hc. injection Hc as <-.
  unfold left_marker, right_marker. cbn [fst snd]. rewrite Hdl, Hdr.
  change (2 * 0)%float with 0%float. change (2 * 1)%float with 2%float.
  rewrite float_sub_0_r.
  split; [reflexivity |].
  exists (x_m wp + 0)%float. split; [reflexivity |].
  destruct (float_add_0_r (x_m wp)) as [-> | [-> ->]].
  - left. reflexivity.
  - right. reflexivity.
Qed.

(** C8. For a list of any length, fewer than 1000 waypoints are sampled
    (at most 399); in the list of markers, when it is generated, the
    left markers are numbered from 0 and the right markers from 1000 in
    the order of the sample, and no left marker has the id of a right
    marker. *)
Theorem boundary_marker_ids_do_not_collide (waypoints : list Waypoint) :
  let sampled := sampled_for_bounds waypoints in
  (List.length sampled < 1000)%nat
  /\ forall markers,
       trackbounds_marker_list waypoints = Ok markers ->
       List.length markers = (2 * List.length sampled)%nat
       /\ (forall i, (i < List.length sampled)%nat ->
             exists left right,
               nth_error markers i = Some left
               /\ nth_error markers (List.length sampled + i) = Some right
               /\ getitem left "ns" = Ok (PStr "trackbounds_left")
               /\ getitem right "ns" = Ok (PStr "trackbounds_right")
               /\ getitem left "id" = Ok (PInt (Z.of_nat i))
               /\ getitem right "id" = Ok (PInt (Z.of_nat i + 1000)))
       /\ (forall left right,
             In left markers -> In right markers ->
             getitem left "ns" = Ok (PStr "trackbounds_left") ->
             getitem right "ns" = Ok (PStr "trackbounds_right") ->
             getitem left "id" <> getitem right "id").
Proof.
  intros sampled.
  pose proof (sampled_for_bounds_length waypoints) as Hlen. fold sampled in Hlen.
  split; [lia |].
  intros markers Hlist.
  apply trackbounds_marker_list_inv in Hlist as (sc & Hsc & ->).
  fold sampled in Hsc |- *.
  pose proof (resolved_length _ _ Hsc) as Hcl.
  split; [rewrite length_app, !length_map, enumerate_length, Hcl; lia |].
  split.
  - intros i Hi.
    destruct (nth_error sampled i) as [wp |] eqn:Hwp;
      [| apply nth_error_None in Hwp; lia].
    destruct (nth_error_markers waypoints sc i wp Hsc Hwp)
      as (p & _ & _ & Hl & Hr).
    exists (left_marker i wp p), (right_marker i wp p).
    split; [exact Hl |]. split; [exact Hr |]. repeat split; reflexivity.
  - intros left right Hl Hr Nl Nr.
    assert (Hleft : exists i wp p, (i < List.length sampled)%nat
                      /\ left = left_marker i wp p).
    { apply in_app_or in Hl as [Hl | Hl];
        apply in_map_iff in Hl as ([i [wp p]] & <- & Hin).
      - exists i, wp, p.
        split; [rewrite <- Hcl; exact (in_enumerate _ _ _ Hin) | reflexivity].
      - discriminate Nl. }
    assert (Hright : exists j wp p, right = right_marker j wp p).
    { apply in_app_or in Hr as [Hr | Hr];
        apply in_map_iff in Hr as ([j [wp p]] & <- & Hin).
      - discriminate Nr.
      - exists j, wp, p. reflexivity. }
    destruct Hleft as (i & wpl & pl & Hi & ->).
    destruct Hright as (j & wpr & pr & ->).
    cbn. intros E. injection E as E. lia.
Qed.

End MarkerProperties.

Lemma boundary_marker_positions_witness :
  exists markers,
    trackbounds_marker_list (rt := Reference.runtime) Samples.four_waypoints
    = Ok markers
    /\ nth_error (sampled_for_bounds Samples.four_waypoints) 1
       = Some (Samples.waypoint 1 2 3 0 2 2)
    /\ exists left right,
         nth_error markers 1 = Some left
         /\ nth_error markers 5 = Some right
         /\ marker_position left = Ok (PFloat 2, PFloat (3 + 2))
         /\ exists x', marker_position right = Ok (PFloat x', PFloat (3 - 2))
                       /\ same_coordinate x' 2.
Proof.
  assert (Hm : exists markers,
             trackbounds_marker_list (rt := Reference.runtime)
               Samples.four_waypoints = Ok markers)
    by (eexists; vm_compute; reflexivity).
  destruct Hm as [markers Hm]. exists markers. split; [exact Hm |].
  assert (H : nth_error (sampled_for_bounds Samples.four_waypoints) 1
              = Some (Samples.waypoint 1 2 3 0 2 2)) by reflexivity.
  split; [exact H |].
  destruct (boundary_marker_positions (rt := Reference.runtime)
              Samples.four_waypoints markers 1 _ Hm H)
    as (s & c & left & right & _ & _ & Hl & Hr & _ & _ & _ & _ & Hzero).
  destruct (Hzero eq_refl eq_refl eq_refl eq_refl eq_refl)
    as (Hpl & x' & Hpr & Hx).
  exists left, right.
  split; [exact Hl | split; [exact Hr | split; [exact Hpl |]]].
  exists x'. split; [exact Hpr | exact Hx].
Defined.

(** * More properties of the converter *)

(** ** Rows that are dropped, rows that are kept *)

Section RowFacts.
Context {rt : PyRuntime}.

Lemma float_at_raises (values : list string) (c : column) (e : exn) :
  float_at values c = Raise e -> e = IndexError \/ e = ValueError.
Proof.
  unfold float_at, index.
  destruct (nth_error values (column_mapping c)); cbn [bind].
  - destruct (py_float s); intros H; [discriminate H | injection H as <-].
    right; reflexivity.
  - intros H. injection H as <-. left; reflexivity.
Qed.

Ltac raise_step :=
  cbv beta zeta;
  match goal with
  | |- bind (float_at ?v ?c) _ = Raise _ -> _ =>
      let E := fresh "E" in
      destruct (float_at v c) eqn:E; cbn [bind];
      [| intros H; injection H as <-; exact (float_at_raises _ _ _ E)]
  end.

(** The three constructors raise nothing but the two exceptions the row
    loop catches. *)
Lemma constructors_raise (values : list string) (i : Z) (e : exn) :
  create_centerline_waypoint values i = Raise e
  \/ create_iqp_waypoint values i 1.0 = Raise e
  \/ create_sp_waypoint values i = Raise e ->
  e = IndexError \/ e = ValueError.
Proof.
  intros [H | [H | H]]; revert H;
    [unfold create_centerline_waypoint | unfold create_iqp_waypoint
     | unfold create_sp_waypoint];
    do 9 raise_step; cbv beta zeta; intros H; discriminate H.
Qed.

(** A data line of fewer than 38 fields adds nothing to any of the three
    lists: the centerline constructor, the first to run, reads field 37.
    The row loop goes on with the lists as they were, after a warning
    with [IndexError] or [ValueError]. *)
Theorem short_row_is_dropped (st : trajectories) (line : string) :
  (List.length (split_values line) < 38)%nat ->
  exists e, try_row st line = (st, Some e)
            /\ (e = IndexError \/ e = ValueError).
Proof.
  intros Hshort. unfold try_row.
  destruct (create_centerline_waypoint _ _) as [c | e] eqn:E.
  - exfalso.
    apply create_centerline_waypoint_inv in E
      as (? & ? & ? & ? & ? & ? & dl & ? & ? &
          _ & _ & _ & _ & _ & _ & Hdl & _).
    unfold float_at, index in Hdl. cbn [column_mapping] in Hdl.
    destruct (nth_error (split_values line) 37) eqn:En; [| discriminate Hdl].
    assert (nth_error (split_values line) 37 <> None) as Hn
      by (rewrite En; discriminate).
    apply nth_error_Some in Hn. lia.
  - exists e. split; [reflexivity |].
    apply (constructors_raise (split_values line) (len (centerline st))).
    left. exact E.
Qed.

Lemma float_at_firstn (values : list string) (c : column) :
  (column_mapping c < 38)%nat ->
  float_at (firstn 38 values) c = float_at values c.
Proof.
  intros Hc. unfold float_at, index. rewrite nth_error_firstn.
  apply Nat.ltb_lt in Hc. rewrite Hc. reflexivity.
Qed.

Ltac same_reads H :=
  cbv beta zeta;
  repeat (rewrite H by (cbn; lia);
          match goal with
          | |- context [bind (float_at ?v ?c) _] =>
              destruct (float_at v c); cbn [bind]; [| reflexivity]
          end;
          cbv beta zeta);
  reflexivity.

Lemma constructors_read_38 (v1 v2 : list string) (i : Z) :
  firstn 38 v1 = firstn 38 v2 ->
  create_centerline_waypoint v1 i = create_centerline_waypoint v2 i
  /\ create_iqp_waypoint v1 i 1.0 = create_iqp_waypoint v2 i 1.0
  /\ create_sp_waypoint v1 i = create_sp_waypoint v2 i.
Proof.
  intros Hv.
  assert (H : forall c, (column_mapping c < 38)%nat ->
                        float_at v1 c = float_at v2 c).
  { intros c Hc.
    rewrite <- (float_at_firstn v1 c Hc), <- (float_at_firstn v2 c Hc), Hv.
    reflexivity. }
  repeat split;
    [unfold create_centerline_waypoint | unfold create_iqp_waypoint
     | unfold create_sp_waypoint]; same_reads H.
Qed.

(** The fields past the 38th (the track-boundary columns among them) are
    never read: two data lines that agree on their first 38 fields leave
    the row loop in the same state, with the same exception if any. *)
Theorem fields_past_38_are_not_read (st : trajectories) (line1 line2 : string) :
  firstn 38 (split_values line1) = firstn 38 (split_values line2) ->
  try_row st line1 = try_row st line2.
Proof.
  intros Hv. unfold try_row.
  destruct (constructors_read_38 _ _ (len (centerline st)) Hv) as (-> & _ & _).
  destruct (create_centerline_waypoint _ _) as [c |]; [| reflexivity].
  cbn [iqp centerline sp].
  destruct (constructors_read_38 _ _ (len (iqp st)) Hv) as (_ & -> & _).
  destruct (create_iqp_waypoint _ _ _) as [q |]; [| reflexivity].
  destruct (constructors_read_38 _ _ (len (sp st)) Hv) as (_ & _ & ->).
  reflexivity.
Qed.

(** The moderate and the aggressive waypoint of one row have the same
    arc length, curvature and track widths, and the moderate targets are
    0.85 and 0.8 times the aggressive ones. *)
Theorem sp_follows_iqp (values : list string) (i j : Z) (q s : Waypoint) :
  create_iqp_waypoint values i 1.0 = Ok q ->
  create_sp_waypoint values j = Ok s ->
  s_m s = s_m q /\ kappa_radpm s = kappa_radpm q
  /\ d_left s = d_left q /\ d_right s = d_right q
  /\ vx_mps s = (vx_mps q * 0.85)%float
  /\ ax_mps2 s = (ax_mps2 q * 0.8)%float.
Proof.
  intros Hq Hs.
  apply create_iqp_waypoint_inv in Hq
    as (x & y & s0 & psi & kappa & dr & dl & v & a &
        _ & _ & _ & Hv & Ha & Hs0 & Hk & Hdr & Hdl & ->).
  apply create_sp_waypoint_inv in Hs
    as (x' & y' & s' & psi' & kappa' & dr' & dl' & v' & a' &
        Hs' & _ & _ & _ & Hk' & Hdr' & Hdl' & Hv' & Ha' & ->).
  rewrite Hs0 in Hs'. rewrite Hk in Hk'. rewrite Hdr in Hdr'.
  rewrite Hdl in Hdl'. rewrite Hv in Hv'. rewrite Ha in Ha'.
  injection Hs' as <-. injection Hk' as <-. injection Hdr' as <-.
  injection Hdl' as <-. injection Hv' as <-. injection Ha' as <-.
  cbn. rewrite float_mul_1_r. repeat split.
Qed.

End RowFacts.

Lemma short_row_is_dropped_witness :
  exists e,
    try_row (rt := Reference.runtime)
            {| centerline := []; iqp := []; sp := [] |} "1,2,3,4,5"
    = ({| centerline := []; iqp := []; sp := [] |}, Some e)
    /\ (e = IndexError \/ e = ValueError).
Proof.
  apply (short_row_is_dropped (rt := Reference.runtime)).
  vm_compute. lia.
Defined.

Lemma fields_past_38_are_not_read_witness :
  try_row (rt := Reference.runtime)
          {| centerline := []; iqp := []; sp := [] |} Samples.row
  = try_row (rt := Reference.runtime)
            {| centerline := []; iqp := []; sp := [] |}
            "0,1,2,3,4,5,6,7,8,9,10,11,12,13,14,15,16,17,18,19,20,21,22,23,24,25,26,27,28,29,30,31,32,33,34,35,36,37".
Proof.
  apply (fields_past_38_are_not_read (rt := Reference.runtime)).
  vm_compute. reflexivity.
Defined.

Lemma sp_follows_iqp_witness :
  exists q s,
    create_iqp_waypoint (rt := Reference.runtime)
      (split_values Samples.row) 0 1.0 = Ok q
    /\ create_sp_waypoint (rt := Reference.runtime)
         (split_values Samples.row) 0 = Ok s
    /\ s_m s = s_m q /\ kappa_radpm s = kappa_radpm q
    /\ d_left s = d_left q /\ d_right s = d_right q
    /\ vx_mps s = (vx_mps q * 0.85)%float
    /\ ax_mps2 s = (ax_mps2 q * 0.8)%float.
Proof.
  do 2 eexists.
  split; [vm_compute; reflexivity |].
  split; [vm_compute; reflexivity |].
  eapply (sp_follows_iqp (rt := Reference.runtime)
            (split_values Samples.row) 0 0);
    vm_compute; reflexivity.
Defined.

(** ** The whole file *)

Section FileFacts.
Context {rt : PyRuntime}.

Lemma try_row_outcome (st : trajectories) (line : string) :
  match try_row st line with
  | (st', None) => List.length (sp st') = S (List.length (sp st))
  | (st', Some _) => sp st' = sp st
  end.
Proof.
  unfold try_row.
  destruct (create_centerline_waypoint _ _); [| reflexivity].
  destruct (create_iqp_waypoint _ _ _); [| reflexivity].
  destruct (create_sp_waypoint _ _); [| reflexivity].
  cbn. rewrite length_app. cbn. lia.
Qed.

Lemma convert_rows_counts (data_lines : list string) :
  forall i st out,
    (List.length (sp (fst (convert_rows i data_lines st out)))
     + List.length (filter is_warning (snd (convert_rows i data_lines st out)))
     = List.length (sp st) + List.length (filter is_warning out)
       + List.length data_lines)%nat.
Proof.
  induction data_lines as [| line rest IH]; intros i st out; cbn.
  - lia.
  - pose proof (try_row_outcome st line) as H.
    destruct (try_row st line) as [st' [e |]]; rewrite IH.
    + rewrite H, filter_app, length_app. cbn. lia.
    + rewrite H. lia.
Qed.

(** Every data line is accounted for: it either adds a moderate (SP)
    waypoint, the last of the three, or is reported in a warning. *)
Theorem every_data_line_is_counted (csv_file : string) (f : list string) :
  let r := load_marina_csv csv_file f in
  (List.length (sp (fst r)) + List.length (filter is_warning (snd r))
   = List.length (read_data_lines f))%nat.
Proof.
  unfold load_marina_csv.
  pose proof (convert_rows_counts (read_data_lines f) 0%nat
                {| centerline := []; iqp := []; sp := [] |}
                [MsgLoading csv_file;
                 MsgFound (List.length (read_data_lines f))]) as H.
  destruct (convert_rows _ _ _ _) as [st out]. cbn [fst snd] in *.
  rewrite filter_app, length_app. cbn in *. lia.
Qed.

Lemma convert_rows_clean (data_lines : list string) :
  forall n i st out,
    (forall line, In line data_lines -> converts line) ->
    List.length (centerline st) = n -> List.length (iqp st) = n ->
    List.length (sp st) = n ->
    exists st',
      convert_rows i data_lines st out = (st', out)
      /\ map Ok (centerline st')
         = map Ok (centerline st)
           ++ map (fun '(k, line) =>
                     create_centerline_waypoint (split_values line) (Z.of_nat k))
                  (combine (seq n (List.length data_lines)) data_lines)
      /\ map Ok (iqp st')
         = map Ok (iqp st)
           ++ map (fun '(k, line) =>
                     create_iqp_waypoint (split_values line) (Z.of_nat k) 1.0)
                  (combine (seq n (List.length data_lines)) data_lines)
      /\ map Ok (sp st')
         = map Ok (sp st)
           ++ map (fun '(k, line) =>
                     create_sp_waypoint (split_values line) (Z.of_nat k))
                  (combine (seq n (List.length data_lines)) data_lines).
Proof.
  induction data_lines as [| line rest IH]; intros n i st out Hall Hc Hq Hs.
  - exists st. cbn. rewrite !app_nil_r. repeat split.
  - cbn [convert_rows]. unfold try_row.
    assert (Hline : converts line) by (apply Hall; left; reflexivity).
    unfold len. rewrite Hc.
    destruct (Hline (Z.of_nat n)) as ([c Ec] & [q Eq] & [s Es]).
    rewrite Ec. cbn [iqp centerline sp]. rewrite Hq, Eq. cbn [iqp centerline sp].
    rewrite Hs, Es.
    destruct (IH (S n) (S i)
                {| centerline := centerline st ++ [c];
                   iqp := iqp st ++ [q]; sp := sp st ++ [s] |} out)
      as (st' & Hrun & Hc' & Hq' & Hs').
    + intros l Hl. apply Hall. right. exact Hl.
    + cbn. rewrite length_app. cbn. lia.
    + cbn. rewrite length_app. cbn. lia.
    + cbn. rewrite length_app. cbn. lia.
    + exists st'. split; [exact Hrun |].
      cbn [centerline iqp sp] in Hc', Hq', Hs'.
      rewrite Hc', Hq', Hs'. cbn [List.length seq combine map].
      rewrite !map_app, <- !app_assoc. cbn [map app].
      rewrite Ec, Eq, Es. repeat split.
Qed.

(** On a file whose data lines all convert, nothing is warned about, the
    three lists are as long as there are data lines, and waypoint [k] of
    each list is the conversion of data line [k] with id [k]. *)
Theorem clean_file_is_converted_line_by_line (csv_file : string)
  (f : list string) :
  (forall line, In line (read_data_lines f) -> converts line) ->
  let data_lines := read_data_lines f in
  let n := List.length data_lines in
  exists t,
    load_marina_csv csv_file f
    = (t, [MsgLoading csv_file; MsgFound n; MsgParsed n])
    /\ List.length (centerline t) = n
    /\ List.length (iqp t) = n
    /\ List.length (sp t) = n
    /\ map Ok (centerline t)
       = map (fun '(k, line) =>
                create_centerline_waypoint (split_values line) (Z.of_nat k))
             (enumerate data_lines)
    /\ map Ok (iqp t)
       = map (fun '(k, line) =>
                create_iqp_waypoint (split_values line) (Z.of_nat k) 1.0)
             (enumerate data_lines)
    /\ map Ok (sp t)
       = map (fun '(k, line) =>
                create_sp_waypoint (split_values line) (Z.of_nat k))
             (enumerate data_lines).
Proof.
  intros Hall data_lines n. unfold load_marina_csv. fold data_lines. fold n.
  destruct (convert_rows_clean data_lines 0%nat 0%nat
              {| centerline := []; iqp := []; sp := [] |}
              [MsgLoading csv_file; MsgFound n] Hall eq_refl eq_refl eq_refl)
    as (t & Hrun & Hc & Hq & Hs).
  cbn [centerline iqp sp map app] in Hc, Hq, Hs.
  assert (Hlen : forall (l : list Waypoint)
                        (g : nat * string -> result Waypoint),
             map Ok l = map g (enumerate data_lines) -> List.length l = n).
  { intros l g E. apply (f_equal (@List.length _)) in E.
    rewrite !length_map, enumerate_length in E. exact E. }
  pose proof (Hlen _ _ Hc) as Lc.
  pose proof (Hlen _ _ Hq) as Lq.
  pose proof (Hlen _ _ Hs) as Ls.
  exists t. rewrite Hrun, Lc.
  split; [reflexivity |].
  split; [reflexivity |].
  split; [exact Lq |].
  split; [exact Ls |].
  split; [exact Hc |].
  split; [exact Hq | exact Hs].
Qed.

Lemma convert_rows_invariant_in (P : trajectories -> Prop)
  (lines : list string) :
  (forall st line, In line lines -> P st -> P (fst (try_row st line))) ->
  forall data_lines, incl data_lines lines ->
  forall i st out, P st -> P (fst (convert_rows i data_lines st out)).
Proof.
  intros Hstep data_lines.
  induction data_lines as [| line rest IH]; intros Hincl i st out Hst; cbn.
  - exact Hst.
  - assert (Hline : In line lines) by (apply Hincl; left; reflexivity).
    specialize (Hstep st line Hline Hst).
    assert (Hrest : incl rest lines)
      by (intros l Hl; apply Hincl; right; exact Hl).
    destruct (try_row st line) as [st' [e |]]; apply IH; assumption.
Qed.

Lemma try_row_made_from (lines : list string) (st : trajectories)
  (line : string) :
  In line lines -> made_from lines st -> made_from lines (fst (try_row st line)).
Proof.
  unfold made_from, try_row. intros Hline (Hc & Hq & Hs).
  assert (Hadd : forall (l : list Waypoint) (w : Waypoint)
                        (P : Waypoint -> Prop),
             (forall wp, In wp l -> P wp) -> P w ->
             forall wp, In wp (l ++ [w]) -> P wp).
  { intros l w P Hl Hw wp Hin.
    apply in_app_or in Hin as [Hin | [<- | []]]; auto. }
  destruct (create_centerline_waypoint _ _) as [c |] eqn:Ec; cbn; [| tauto].
  assert (Pc : d_m c = 0%float
               /\ exists line i, In line lines
                    /\ create_centerline_waypoint (split_values line) i = Ok c).
  { split; [| eauto].
    apply create_centerline_waypoint_inv in Ec
      as (? & ? & ? & ? & ? & ? & ? & ? & ? &
          _ & _ & _ & _ & _ & _ & _ & _ & _ & ->). reflexivity. }
  destruct (create_iqp_waypoint _ _ _) as [q |] eqn:Eq; cbn;
    [| split; [apply Hadd; assumption | tauto]].
  assert (Pq : d_m q = 0%float
               /\ exists line i, In line lines
                    /\ create_iqp_waypoint (split_values line) i 1.0 = Ok q).
  { split; [| eauto].
    apply create_iqp_waypoint_inv in Eq
      as (? & ? & ? & ? & ? & ? & ? & ? & ? &
          _ & _ & _ & _ & _ & _ & _ & _ & _ & ->). reflexivity. }
  destruct (create_sp_waypoint _ _) as [s |] eqn:Es; cbn;
    (split; [apply Hadd; assumption |]);
    (split; [apply Hadd; assumption |]); [| exact Hs].
  apply Hadd; [exact Hs |].
  split; [| eauto].
  apply create_sp_waypoint_inv in Es
    as (? & ? & ? & ? & ? & ? & ? & ? & ? &
        _ & _ & _ & _ & _ & _ & _ & _ & _ & ->). reflexivity.
Qed.

(** No waypoint is made up: each one in the three lists is the output of
    its constructor on a kept data line of the file, and its lateral
    offset [d_m] is 0.0. *)
Theorem waypoints_are_made_from_data_lines (csv_file : string)
  (f : list string) :
  made_from (read_data_lines f) (fst (load_marina_csv csv_file f)).
Proof.
  unfold load_marina_csv.
  pose proof (convert_rows_invariant_in (made_from (read_data_lines f))
                (read_data_lines f)
                (fun st line => try_row_made_from _ st line)
                (read_data_lines f) (fun l H => H) 0%nat
                {| centerline := []; iqp := []; sp := [] |}
                [MsgLoading csv_file;
                 MsgFound (List.length (read_data_lines f))]) as H.
  destruct (convert_rows _ _ _ _) as [st out]. cbn [fst] in *.
  apply H. unfold made_from. cbn. tauto.
Qed.

End FileFacts.

Lemma clean_file_is_converted_line_by_line_witness :
  exists t,
    load_marina_csv (rt := Reference.runtime) "marina.csv"
                    ["# header"; Samples.row; ""; Samples.row]
    = (t, [MsgLoading "marina.csv"; MsgFound 2; MsgParsed 2])
    /\ List.length (centerline t) = 2%nat
    /\ List.length (iqp t) = 2%nat
    /\ List.length (sp t) = 2%nat.
Proof.
  destruct (clean_file_is_converted_line_by_line (rt := Reference.runtime)
              "marina.csv" ["# header"; Samples.row; ""; Samples.row])
    as (t & Ht & Hc & Hq & Hs & _).
  - intros line Hin. vm_compute in Hin.
    destruct Hin as [<- | [<- | []]]; intros i;
      (split; [| split]); eexists; reflexivity.
  - exists t. repeat split; assumption.
Defined.

(** ** The first loop, again *)

Lemma read_data_lines_app (f g : list string) :
  read_data_lines (f ++ g) = read_data_lines f ++ read_data_lines g.
Proof.
  induction f as [| line rest IH]; [reflexivity |].
  cbn [app read_data_lines]. rewrite IH.
  destruct (_ || _); [reflexivity |]. destruct (_ || _); reflexivity.
Qed.

Lemma read_data_lines_stripped (f : list string) :
  Forall (fun l => Text.strip l = l) (read_data_lines f).
Proof.
  induction f as [| line rest IH]; cbn [read_data_lines]; [constructor |].
  destruct (_ || _); [exact IH |]. destruct (_ || _); [exact IH |].
  constructor; [apply strip_strip | exact IH].
Qed.

(** The first loop decides line by line and keeps the order, so the data
    lines of two pieces of a file are those of the whole; and the kept
    lines, read again, are all kept as they are. *)
Theorem read_data_lines_splits_and_settles (f g : list string) :
  read_data_lines (f ++ g) = read_data_lines f ++ read_data_lines g
  /\ read_data_lines (read_data_lines f) = read_data_lines f.
Proof.
  split; [apply read_data_lines_app |].
  induction f as [| line rest IH]; [reflexivity |].
  cbn [read_data_lines].
  destruct (match Text.strip line with EmptyString => true | _ => false end
            || Text.startswith (Text.strip line) "#") eqn:E1; [exact IH |].
  destruct (Text.startswith (Text.strip line) "nan"
            || negb (Text.any_isdigit (Text.strip line))) eqn:E2; [exact IH |].
  cbn [read_data_lines]. rewrite strip_strip, E1, E2, IH. reflexivity.
Qed.

(** ** The documents *)

Section OrderFacts.

Lemma SFltb_trans (x y z : spec_float) :
  SFltb x y = true -> SFltb y z = true -> SFltb x z = true.
Proof.
  unfold SFltb, SFcompare.
  destruct x as [sx|sx| |sx mx ex], y as [sy|sy| |sy my ey],
           z as [sz|sz| |sz mz ez];
    try discriminate; try reflexivity;
    try (destruct sx; try discriminate; try reflexivity);
    try (destruct sy; try discriminate; try reflexivity);
    try (destruct sz; try discriminate; try reflexivity);
    change (Pos.compare_cont Eq) with Pos.compare;
    destruct (Z.compare_spec ex ey); try discriminate;
    destruct (Z.compare_spec ey ez); try discriminate;
    destruct (Z.compare_spec ex ez); try reflexivity; try lia; subst;
    try (destruct (Pos.compare_spec mx my); try discriminate);
    try (destruct (Pos.compare_spec my mz); try discriminate);
    try (destruct (Pos.compare_spec mx mz); try reflexivity; try discriminate);
    cbn; intros; try discriminate; try reflexivity; try lia.
Qed.

Lemma SFltb_irrefl (x : spec_float) : SFltb x x = false.
Proof.
  unfold SFltb, SFcompare.
  destruct x as [s|s| |s m e]; try reflexivity; destruct s; try reflexivity;
    rewrite Z.compare_refl; change (Pos.compare_cont Eq) with Pos.compare;
    rewrite Pos.compare_refl; reflexivity.
Qed.

Lemma float_ltb_trans (x y z : float) :
  (x <? y)%float = true -> (y <? z)%float = true -> (x <? z)%float = true.
Proof. rewrite !ltb_spec. apply SFltb_trans. Qed.

Lemma float_ltb_irrefl (x : float) : (x <? x)%float = false.
Proof. rewrite ltb_spec. apply SFltb_irrefl. Qed.

(** What the loop of [min] keeps: the running minimum is the start or an
    element, and nothing that was not below the start, and no element,
    is below it. *)
Lemma min_loop (t : list float) :
  forall m0,
    let m := fold_left (fun m y => if (y <? m)%float then y else m) t m0 in
    (m = m0 \/ In m t)
    /\ (forall x, (x <? m0)%float = false -> (x <? m)%float = false)
    /\ (forall x, In x t -> (x <? m)%float = false).
Proof.
  induction t as [| y t IH]; intros m0; cbn [fold_left].
  - repeat split; [left; reflexivity | trivial | intros x []].
  - destruct (IH (if (y <? m0)%float then y else m0)) as (Ha & Hb & Hc).
    assert (Hstep : forall x, (x <? m0)%float = false ->
                (x <? (if (y <? m0)%float then y else m0))%float = false).
    { intros x Hx. destruct (y <? m0)%float eqn:E; [| exact Hx].
      destruct (x <? y)%float eqn:Exy; [| reflexivity].
      rewrite (float_ltb_trans x y m0 Exy E) in Hx. discriminate Hx. }
    split; [| split].
    + destruct Ha as [Ha | Ha]; [| right; right; exact Ha].
      rewrite Ha. destruct (y <? m0)%float; [right; left | left]; reflexivity.
    + intros x Hx. apply Hb, Hstep, Hx.
    + intros x [<- | Hx]; [| apply Hc, Hx].
      apply Hb. destruct (y <? m0)%float eqn:E;
        [apply float_ltb_irrefl | exact E].
Qed.

Lemma py_min_spec (xs : list float) (m : float) :
  py_min xs = Ok m ->
  In m xs /\ forall x, In x xs -> (x <? m)%float = false.
Proof.
  destruct xs as [| x0 t]; [discriminate |].
  cbn [py_min]. intros H. injection H as <-.
  destruct (min_loop t x0) as (Ha & Hb & Hc).
  split.
  - destruct Ha as [-> | Ha]; [left; reflexivity | right; exact Ha].
  - intros x [<- | Hx]; [apply Hb, float_ltb_irrefl | apply Hc, Hx].
Qed.

Lemma max_loop (t : list float) :
  forall m0,
    let m := fold_left (fun m y => if (m <? y)%float then y else m) t m0 in
    (m = m0 \/ In m t)
    /\ (forall x, (m0 <? x)%float = false -> (m <? x)%float = false)
    /\ (forall x, In x t -> (m <? x)%float = false).
Proof.
  induction t as [| y t IH]; intros m0; cbn [fold_left].
  - repeat split; [left; reflexivity | trivial | intros x []].
  - destruct (IH (if (m0 <? y)%float then y else m0)) as (Ha & Hb & Hc).
    assert (Hstep : forall x, (m0 <? x)%float = false ->
                ((if (m0 <? y)%float then y else m0) <? x)%float = false).
    { intros x Hx. destruct (m0 <? y)%float eqn:E; [| exact Hx].
      destruct (y <? x)%float eqn:Eyx; [| reflexivity].
      rewrite (float_ltb_trans m0 y x E Eyx) in Hx. discriminate Hx. }
    split; [| split].
    + destruct Ha as [Ha | Ha]; [| right; right; exact Ha].
      rewrite Ha. destruct (m0 <? y)%float; [right; left | left]; reflexivity.
    + intros x Hx. apply Hb, Hstep, Hx.
    + intros x [<- | Hx]; [| apply Hc, Hx].
      apply Hb. destruct (m0 <? y)%float eqn:E;
        [apply float_ltb_irrefl | exact E].
Qed.

Lemma py_max_spec (xs : list float) (m : float) :
  py_max xs = Ok m ->
  In m xs /\ forall x, In x xs -> (m <? x)%float = false.
Proof.
  destruct xs as [| x0 t]; [discriminate |].
  cbn [py_max]. intros H. injection H as <-.
  destruct (max_loop t x0) as (Ha & Hb & Hc).
  split.
  - destruct Ha as [-> | Ha]; [left; reflexivity | right; exact Ha].
  - intros x [<- | Hx]; [apply Hb, float_ltb_irrefl | apply Hc, Hx].
Qed.

End OrderFacts.

Section DocumentFacts.
Context {rt : PyRuntime}.

(** The map origin is 5.0 below and to the left of the lower-left corner
    of the waypoints: its [x] is [min_x - 5.0] for an [x_m] of the list
    that no [x_m] of the list is below, and its [y] likewise. *)
Theorem map_origin_is_below_every_waypoint (output_map_name : string)
  (waypoints : list Waypoint) :
  waypoints <> [] ->
  exists doc min_x min_y,
    create_map_yaml output_map_name waypoints = Ok doc
    /\ getitem doc "origin"
       = Ok (PList [PFloat (min_x - 5.0); PFloat (min_y - 5.0); PInt 0])
    /\ In min_x (map x_m waypoints) /\ In min_y (map y_m waypoints)
    /\ (forall wp, In wp waypoints ->
          (x_m wp <? min_x)%float = false /\ (y_m wp <? min_y)%float = false)
    /\ getitem doc "image" = Ok (PStr (output_map_name ++ ".png")).
Proof.
  intros Hne. unfold create_map_yaml.
  destruct waypoints as [| w0 rest]; [contradiction Hne; reflexivity |].
  destruct (py_min (map x_m (w0 :: rest))) as [min_x |] eqn:Ex;
    [| discriminate Ex].
  destruct (py_min (map y_m (w0 :: rest))) as [min_y |] eqn:Ey;
    [| discriminate Ey].
  destruct (py_max (map x_m (w0 :: rest))) as [max_x |] eqn:Emx;
    [| discriminate Emx].
  destruct (py_max (map y_m (w0 :: rest))) as [max_y |] eqn:Emy;
    [| discriminate Emy].
  cbn [bind].
  apply py_min_spec in Ex as [Hx Hxl]. apply py_min_spec in Ey as [Hy Hyl].
  do 3 eexists. split; [reflexivity |].
  split; [reflexivity |]. split; [exact Hx |]. split; [exact Hy |].
  split; [| reflexivity].
  intros wp Hwp. split; [apply Hxl | apply Hyl]; apply in_map; exact Hwp.
Qed.

Lemma map_result_raises {A B : Type} (f : A -> result B) (l : list A)
  (e0 e : exn) :
  (forall x e', f x = Raise e' -> e' = e0) ->
  map_result f l = Raise e -> e = e0.
Proof.
  intros Hf. induction l as [| x t IH]; cbn [map_result]; [discriminate |].
  destruct (f x) as [y | e'] eqn:Ex; cbn [bind].
  - destruct (map_result f t) as [ys | e''] eqn:Et; cbn [bind];
      [discriminate |].
    intros H. injection H as <-. apply IH. reflexivity.
  - intros H. injection H as <-. exact (Hf x e' Ex).
Qed.

Lemma trackbounds_marker_list_raises (waypoints : list Waypoint) (e : exn) :
  trackbounds_marker_list waypoints = Raise e -> e = ValueError.
Proof.
  unfold trackbounds_marker_list.
  destruct (map_result _ [("left", boundary_color); ("right", boundary_color)])
    as [passes | e'] eqn:E; cbn [bind]; [discriminate |].
  intros H. injection H as <-.
  apply (map_result_raises _ _ ValueError e') in E; [exact E |].
  intros [side color] e1 H1.
  apply (map_result_raises _ _ ValueError e1) in H1; [exact H1 |].
  intros [i wp] e2. unfold trackbounds_marker, sin_of, cos_of.
  destruct (String.eqb side "left");
    destruct (math_sin (psi_rad wp)); cbn;
    try (intros H2; injection H2 as <-; reflexivity);
    destruct (math_cos (psi_rad wp)); cbn;
    try (intros H2; injection H2 as <-; reflexivity); discriminate.
Qed.

(** The waypoint document is made exactly when neither the aggressive
    nor the moderate list is empty and [math.sin] and [math.cos] return
    on every heading sampled for the boundary markers; otherwise
    [ValueError] is raised, by [max] or by the sine. The centerline list
    plays no part in this, and the lap time of the document is the
    constant 108.68526373056437 * 1.08. *)
Theorem global_waypoints_need_both_racing_lines (t : trajectories) :
  ((exists doc, create_global_waypoints_json t = Ok doc)
   <-> (iqp t <> [] /\ sp t <> []
        /\ exists sc, headings_resolve (sampled_for_bounds (iqp t)) sc))
  /\ (forall e, create_global_waypoints_json t = Raise e -> e = ValueError)
  /\ (iqp t = [] \/ sp t = [] ->
      create_global_waypoints_json t = Raise ValueError)
  /\ (forall doc, create_global_waypoints_json t = Ok doc ->
        getitem doc "est_lap_time"
        = Ok (PDict [("data", PFloat (108.68526373056437 * 1.08))])).
Proof.
  unfold create_global_waypoints_json, create_trackbounds_markers.
  destruct (iqp t) as [| q0 qs] eqn:Eq; [| destruct (sp t) as [| s0 ss]];
    cbn [map py_max bind].
  - split; [split |].
    + intros [doc H]; discriminate H.
    + intros [H _]; contradiction H; reflexivity.
    + split; [intros e H; injection H as <-; reflexivity |].
      split; [reflexivity | intros doc H; discriminate H].
  - split; [split |].
    + intros [doc H]; discriminate H.
    + intros (_ & H & _); contradiction H; reflexivity.
    + split; [intros e H; injection H as <-; reflexivity |].
      split; [reflexivity | intros doc H; discriminate H].
  - destruct (trackbounds_marker_list (q0 :: qs)) as [markers | e0] eqn:Em;
      cbn [bind].
    + split; [split |].
      * intros _. split; [discriminate |]. split; [discriminate |].
        apply trackbounds_marker_list_inv in Em as (sc & Hsc & _).
        exists sc. exact Hsc.
      * intros _. eexists; reflexivity.
      * split; [intros e H; discriminate H |].
        split; [intros [H | H]; discriminate H |].
        intros doc H. injection H as <-. reflexivity.
    + split; [split |].
      * intros [doc H]; discriminate H.
      * intros (_ & _ & sc & Hsc).
        rewrite (trackbounds_marker_list_ok _ _ Hsc) in Em. discriminate Em.
      * split.
        -- intros e H. injection H as <-.
           exact (trackbounds_marker_list_raises _ _ Em).
        -- split; [intros [H | H]; discriminate H |].
           intros doc H; discriminate H.
Qed.

End DocumentFacts.

Lemma map_origin_is_below_every_waypoint_witness :
  exists doc min_x min_y,
    create_map_yaml "marina" Samples.four_waypoints = Ok doc
    /\ getitem doc "origin"
       = Ok (PList [PFloat (min_x - 5.0); PFloat (min_y - 5.0); PInt 0])
    /\ In min_x (map x_m Samples.four_waypoints)
    /\ In min_y (map y_m Samples.four_waypoints).
Proof.
  destruct (map_origin_is_below_every_waypoint "marina" Samples.four_waypoints)
    as (doc & mx & my & H1 & H2 & H3 & H4 & _).
  - discriminate.
  - exists doc, mx, my. repeat split; assumption.
Defined.

(** ** Sampling for the markers *)

Lemma nth_error_every_from {A : Type} (step : nat) (l : list A) :
  (1 <= step)%nat ->
  forall skip i,
    nth_error (every_from step skip l) i = nth_error l (skip + i * step).
Proof.
  intros Hstep. induction l as [| x t IH]; intros skip i; cbn [every_from].
  - rewrite !nth_error_nil. reflexivity.
  - destruct skip as [| k].
    + destruct i as [| i]; [reflexivity |].
      cbn [nth_error]. rewrite IH.
      replace (0 + S i * step)%nat with (S (step - 1 + i * step)) by lia.
      reflexivity.
    + rewrite IH. reflexivity.
Qed.

Lemma nth_error_slice_step {A : Type} (l : list A) (step i : nat) :
  (1 <= step)%nat ->
  nth_error (slice_step l step) i = nth_error l (i * step).
Proof.
  intros Hstep. unfold slice_step.
  rewrite nth_error_every_from by exact Hstep. reflexivity.
Qed.

(** With the stride [max(1, N // d)], fewer than [2 * d] elements of a
    list of [N] are taken. *)
Lemma slice_step_length {A : Type} (l : list A) (d : nat) :
  (1 <= d)%nat ->
  (List.length (slice_step l (Nat.max 1 (List.length l / d))) <= 2 * d - 1)%nat.
Proof.
  intros Hd. unfold slice_step.
  set (N := List.length l).
  set (step := Nat.max 1 (N / d)).
  pose proof (every_from_length step l 0%nat) as H. fold N in H.
  assert (Hstep : (1 <= step)%nat) by (unfold step; lia).
  specialize (H ltac:(lia)).
  set (L := List.length (every_from step 0 l)) in *.
  pose proof (Nat.div_mod_eq N d) as Hdiv.
  pose proof (Nat.mod_upper_bound N d ltac:(lia)) as Hmod.
  destruct (Nat.le_gt_cases 1 (N / d)) as [Hbig | Hsmall].
  - assert (step = (N / d)%nat) by (unfold step; lia). nia.
  - assert (step = 1%nat) by (unfold step; lia). nia.
Qed.

(** The waypoint markers: marker [i] has id [i] and sits on waypoint
    [i * stride], for the stride [max(1, N // 500)]; a waypoint at such
    an index has its marker, and there are at most 999 markers. *)
Theorem waypoint_markers_follow_the_stride (waypoints : list Waypoint)
  (marker_type : string) (color : pyval) :
  let stride := Nat.max 1 (List.length waypoints / 500) in
  exists markers,
    markers_of (create_waypoint_markers waypoints marker_type color)
    = Ok markers
    /\ (List.length markers <= 999)%nat
    /\ forall i,
         nth_error markers i
         = option_map
             (fun wp => marker_dict "" (Z.of_nat i) 2 (x_m wp) (y_m wp)
                                    0.05%float color)
             (nth_error waypoints (i * stride)).
Proof.
  intros stride. eexists. split; [reflexivity |]. split.
  - rewrite length_map, enumerate_length.
    apply (slice_step_length waypoints 500). lia.
  - intros i. rewrite nth_error_map, nth_error_enumerate.
    rewrite nth_error_slice_step by (unfold stride; lia). fold stride.
    destruct (nth_error waypoints (i * stride)); reflexivity.
Qed.

Section BoundsSampling.
Context {rt : PyRuntime}.

(** The boundary markers, when they are generated: with the stride
    [max(1, N // 200)] and [count] sampled waypoints, entry [i < count]
    of the list is the left marker of waypoint [i * stride] and entry
    [count + i] its right marker. *)
Theorem boundary_markers_follow_the_stride (waypoints : list Waypoint)
  (markers : list pyval) (i : nat) :
  let stride := Nat.max 1 (List.length waypoints / 200) in
  let count := List.length (sampled_for_bounds waypoints) in
  trackbounds_marker_list waypoints = Ok markers ->
  (i < count)%nat ->
  exists wp left right,
    nth_error waypoints (i * stride) = Some wp
    /\ trackbounds_marker "left" boundary_color i wp = Ok left
    /\ trackbounds_marker "right" boundary_color i wp = Ok right
    /\ nth_error markers i = Some left
    /\ nth_error markers (count + i) = Some right.
Proof.
  intros stride count Hlist Hi.
  apply trackbounds_marker_list_inv in Hlist as (sc & Hsc & ->).
  destruct (nth_error (sampled_for_bounds waypoints) i) as [wp |] eqn:Hwp;
    [| apply nth_error_None in Hwp; unfold count in Hi; lia].
  destruct (nth_error_markers waypoints sc i wp Hsc Hwp)
    as (p & Hs & Hc & Hl & Hr).
  exists wp, (left_marker i wp p), (right_marker i wp p).
  split.
  - rewrite <- Hwp. unfold sampled_for_bounds. symmetry.
    apply nth_error_slice_step. lia.
  - split; [exact (trackbounds_marker_left_ok i wp p Hs Hc) |].
    split; [exact (trackbounds_marker_right_ok i wp p Hs Hc) |].
    split; [exact Hl | exact Hr].
Qed.

End BoundsSampling.

Lemma boundary_markers_follow_the_stride_witness :
  exists markers wp left right,
    trackbounds_marker_list (rt := Reference.runtime) Samples.four_waypoints
    = Ok markers
    /\ nth_error Samples.four_waypoints 2 = Some wp
    /\ trackbounds_marker (rt := Reference.runtime)
         "left" boundary_color 2 wp = Ok left
    /\ trackbounds_marker (rt := Reference.runtime)
         "right" boundary_color 2 wp = Ok right
    /\ nth_error markers 2 = Some left
    /\ nth_error markers 6 = Some right.
Proof.
  assert (Hm : exists markers,
             trackbounds_marker_list (rt := Reference.runtime)
               Samples.four_waypoints = Ok markers)
    by (eexists; vm_compute; reflexivity).
  destruct Hm as [markers Hm]. exists markers.
  destruct (boundary_markers_follow_the_stride (rt := Reference.runtime)
              Samples.four_waypoints markers 2 Hm)
    as (wp & left & right & H1 & H2 & H3 & H4 & H5).
  - vm_compute. lia.
  - exists wp, left, right. repeat split; assumption.
Defined.

(** ** The sector documents at their edges *)

(** The second overtaking sector holds an index only from three
    waypoints on; the two overtaking sectors hold [max(N, 1)] indices
    together, and the single speed-scaling sector [0 .. N-1] holds [N],
    so for an empty list its end is -1. *)
Theorem sectors_at_small_lengths (waypoints : list Waypoint) :
  let N := len waypoints in
  exists s1 e1 e0,
    sector (create_ot_sectors_yaml waypoints) "Overtaking_sector0"
    = Ok (PInt 0, PInt e0, PBool false)
    /\ sector (create_ot_sectors_yaml waypoints) "Overtaking_sector1"
       = Ok (PInt s1, PInt e1, PBool false)
    /\ (s1 <= e1 <-> 3 <= N)%Z
    /\ (range_size 0 e0 + range_size s1 e1 = Z.max N 1)%Z
    /\ getitem (create_speed_scaling_yaml waypoints) "Sector0"
       = Ok (PDict [("start", PInt 0); ("end", PInt (N - 1));
                    ("scaling", PFloat 0.5); ("only_FTG", PBool false);
                    ("no_FTG", PBool false)])
    /\ range_size 0 (N - 1) = N.
Proof.
  intros N.
  assert (HN : (0 <= N)%Z) by (unfold N, len; lia).
  assert (Hdiv : (N = 2 * (N / 2) + N mod 2)%Z) by (apply Z.div_mod; lia).
  assert (Hmod : (0 <= N mod 2 < 2)%Z) by (apply Z.mod_pos_bound; lia).
  do 3 eexists. split; [reflexivity |]. split; [reflexivity |].
  fold N. unfold range_size. repeat split; try reflexivity; lia.
Qed.

(** ** Runs that get past the row loop *)

Section RunCases.
Context {rt : PyRuntime} {fs : FileSystem}.










End RunCases.



(** ** The plotting utility on the converter's document *)

Lemma load_waypoints_data_of_document_witness :
  let t := fst (load_marina_csv (rt := Reference.runtime) "marina.csv"
                  [Samples.row]) in
  exists doc markers,
    create_global_waypoints_json (rt := Reference.runtime) t = Ok doc
    /\ trackbounds_marker_list (rt := Reference.runtime) (iqp t) = Ok markers
    /\ PlotRaceline.load_waypoints_data doc
       = Ok (PList (map wpnt_msg (centerline t)),
             PList (map wpnt_msg (iqp t)),
             PList (map wpnt_msg (sp t)),
             PList markers).
Proof.
  intros t.
  assert (H : exists doc,
             create_global_waypoints_json (rt := Reference.runtime) t = Ok doc)
    by (eexists; vm_compute; reflexivity).
  destruct H as [doc Hdoc]. exists doc.
  destruct (load_waypoints_data_of_document (rt := Reference.runtime) t doc
              Hdoc) as (markers & Hm & Hload).
  exists markers. split; [exact Hdoc |]. split; [exact Hm | exact Hload].
Defined.

(** A document that lacks one of the three waypoint blocks is refused
    with [KeyError] (or [TypeError], when a block before it is not a
    dictionary); one that lacks [trackbounds_markers] is loaded, with an
    empty list of markers. *)
Theorem load_waypoints_data_keys (kv : list (string * pyval)) :
  (assoc "centerline_waypoints" kv = None
   \/ assoc "global_traj_wpnts_iqp" kv = None
   \/ assoc "global_traj_wpnts_sp" kv = None ->
   PlotRaceline.load_waypoints_data (PDict kv) = Raise KeyError
   \/ PlotRaceline.load_waypoints_data (PDict kv) = Raise TypeError)
  /\ (forall cl q s tb,
        PlotRaceline.load_waypoints_data (PDict kv) = Ok (cl, q, s, tb) ->
        assoc "trackbounds_markers" kv = None -> tb = PList []).
Proof.
  assert (Hget : forall d k, getitem d k = Raise KeyError
                             \/ getitem d k = Raise TypeError
                             \/ exists v, getitem d k = Ok v).
  { intros d k. unfold getitem. destruct d; auto.
    destruct (assoc k d); eauto. }
  unfold PlotRaceline.load_waypoints_data. split.
  - intros Hmiss. cbn [getitem].
    destruct (assoc "centerline_waypoints" kv) as [c |]; [| left; reflexivity].
    cbn [bind].
    destruct (Hget c "wpnts") as [-> | [-> | [v ->]]]; cbn [bind]; auto.
    destruct (assoc "global_traj_wpnts_iqp" kv) as [q |]; [| left; reflexivity].
    cbn [bind].
    destruct (Hget q "wpnts") as [-> | [-> | [v' ->]]]; cbn [bind]; auto.
    destruct (assoc "global_traj_wpnts_sp" kv) as [s |]; [| left; reflexivity].
    destruct Hmiss as [H | [H | H]]; discriminate H.
  - intros cl q s tb H Hnone.
    destruct (getitem (PDict kv) "centerline_waypoints"); [| discriminate H].
    cbn [bind] in H. destruct (getitem a "wpnts"); [| discriminate H].
    cbn [bind] in H.
    destruct (getitem (PDict kv) "global_traj_wpnts_iqp"); [| discriminate H].
    cbn [bind] in H. destruct (getitem a1 "wpnts"); [| discriminate H].
    cbn [bind] in H.
    destruct (getitem (PDict kv) "global_traj_wpnts_sp"); [| discriminate H].
    cbn [bind] in H. destruct (getitem a3 "wpnts"); [| discriminate H].
    cbn [bind get_default] in H. rewrite Hnone in H.
    cbn [bind get_default assoc] in H. injection H as _ _ _ <-. reflexivity.
Qed.

Lemma column_of_each (k : string) (l vs : list pyval) :
  PlotRaceline.column_of k l = Ok vs ->
  Forall2 (fun wp v => getitem wp k = Ok v) l vs.
Proof.
  revert vs. induction l as [| wp rest IH]; intros vs H; cbn in H.
  - injection H as <-. constructor.
  - destruct (getitem wp k) as [v |] eqn:E; [| discriminate H].
    cbn [bind] in H.
    destruct (PlotRaceline.column_of k rest) as [vs' |]; [| discriminate H].
    cbn [bind] in H. injection H as <-.
    constructor; [exact E | apply IH; reflexivity].
Qed.

Lemma Forall2_partner {A B : Type} (R : A -> B -> Prop) (l : list A)
  (l' : list B) (a : A) :
  Forall2 R l l' -> In a l -> exists b, In b l' /\ R a b.
Proof.
  induction 1 as [| x y l l' Hxy _ IH]; intros Hin; [destruct Hin |].
  destruct Hin as [<- | Hin].
  - exists y. split; [left; reflexivity | exact Hxy].
  - destruct (IH Hin) as (b & Hb & Hab). exists b. split; [right |]; assumption.
Qed.

(** On any list of waypoints of a loaded document, the coordinates and
    speeds that come out are, entry by entry, the [x_m], [y_m] and
    [vx_mps] of the waypoints, so the three lists are as long as the
    input; a waypoint that lacks one of the keys makes the call raise. *)
Theorem extracted_columns_match_the_waypoints (l : list pyval) :
  (forall xs ys vs,
     PlotRaceline.extract_coordinates_and_speeds (PList l) = Ok (xs, ys, vs) ->
     Forall2 (fun wp v => getitem wp "x_m" = Ok v) l xs
     /\ Forall2 (fun wp v => getitem wp "y_m" = Ok v) l ys
     /\ Forall2 (fun wp v => getitem wp "vx_mps" = Ok v) l vs
     /\ List.length xs = List.length l
     /\ List.length ys = List.length l
     /\ List.length vs = List.length l)
  /\ (forall wp k, In wp l -> In k ["x_m"; "y_m"; "vx_mps"] ->
        (forall v, getitem wp k <> Ok v) ->
        exists e, PlotRaceline.extract_coordinates_and_speeds (PList l)
                  = Raise e).
Proof.
  unfold PlotRaceline.extract_coordinates_and_speeds.
  cbn [PlotRaceline.items bind]. split.
  - intros xs ys vs H.
    destruct (PlotRaceline.column_of "x_m" l) as [xs' |] eqn:Ex;
      [| discriminate H].
    cbn [bind] in H.
    destruct (PlotRaceline.column_of "y_m" l) as [ys' |] eqn:Ey;
      [| discriminate H].
    cbn [bind] in H.
    destruct (PlotRaceline.column_of "vx_mps" l) as [vs' |] eqn:Ev;
      [| discriminate H].
    cbn [bind] in H. injection H as <- <- <-.
    apply column_of_each in Ex, Ey, Ev.
    repeat split; try assumption; symmetry;
      eapply Forall2_length; eassumption.
  - intros wp k Hwp Hk Hmiss.
    assert (Hcol : forall vs, PlotRaceline.column_of k l <> Ok vs).
    { intros vs Hvs. apply column_of_each in Hvs.
      destruct (Forall2_partner _ _ _ _ Hvs Hwp) as (v & _ & Hv).
      exact (Hmiss v Hv). }
    destruct (PlotRaceline.column_of "x_m" l) as [xs |] eqn:Ex;
      [| eexists; reflexivity].
    cbn [bind].
    destruct (PlotRaceline.column_of "y_m" l) as [ys |] eqn:Ey;
      [| eexists; reflexivity].
    cbn [bind].
    destruct (PlotRaceline.column_of "vx_mps" l) as [vs |] eqn:Ev;
      [| eexists; reflexivity].
    exfalso.
    destruct Hk as [<- | [<- | [<- | []]]];
      [exact (Hcol _ Ex) | exact (Hcol _ Ey) | exact (Hcol _ Ev)].
Qed.

(** ** The boundary reader *)

Section BoundsReaderFacts.
Context {rt : PyRuntime}.

Lemma scan_markers_app (acc : PlotBounds.bounds) (a b : list pyval) :
  PlotBounds.scan_markers acc (a ++ b)
  = match PlotBounds.scan_markers acc a with
    | inl e => inl e
    | inr acc' => PlotBounds.scan_markers acc' b
    end.
Proof.
  revert acc. induction a as [| m rest IH]; intros acc; [reflexivity |].
  cbn [app PlotBounds.scan_markers].
  destruct (PlotBounds.scan_marker acc m); [reflexivity | apply IH].
Qed.

Lemma scan_left_marker (acc : PlotBounds.bounds) (i : Z) (x y : float) :
  PlotBounds.scan_marker acc
    (marker_dict "trackbounds_left" i 1 x y 0.1%float boundary_color)
  = inr {| PlotBounds.left_bounds_x := PlotBounds.left_bounds_x acc ++ [x];
           PlotBounds.left_bounds_y := PlotBounds.left_bounds_y acc ++ [y];
           PlotBounds.right_bounds_x := PlotBounds.right_bounds_x acc;
           PlotBounds.right_bounds_y := PlotBounds.right_bounds_y acc;
           PlotBounds.valid_markers := S (PlotBounds.valid_markers acc) |}.
Proof. reflexivity. Qed.

Lemma scan_right_marker (acc : PlotBounds.bounds) (i : Z) (x y : float) :
  PlotBounds.scan_marker acc
    (marker_dict "trackbounds_right" i 1 x y 0.1%float boundary_color)
  = inr {| PlotBounds.left_bounds_x := PlotBounds.left_bounds_x acc;
           PlotBounds.left_bounds_y := PlotBounds.left_bounds_y acc;
           PlotBounds.right_bounds_x := PlotBounds.right_bounds_x acc ++ [x];
           PlotBounds.right_bounds_y := PlotBounds.right_bounds_y acc ++ [y];
           PlotBounds.valid_markers := S (PlotBounds.valid_markers acc) |}.
Proof. reflexivity. Qed.

Lemma scan_left_markers (l : list (Waypoint * (float * float))) :
  forall (s : nat) (acc : PlotBounds.bounds),
    PlotBounds.scan_markers acc
      (map (fun '(i, (wp, p)) => left_marker i wp p)
           (combine (seq s (List.length l)) l))
    = inr {| PlotBounds.left_bounds_x :=
               PlotBounds.left_bounds_x acc
               ++ map (fun '(wp, p) => (x_m wp - d_left wp * fst p)%float) l;
             PlotBounds.left_bounds_y :=
               PlotBounds.left_bounds_y acc
               ++ map (fun '(wp, p) => (y_m wp + d_left wp * snd p)%float) l;
             PlotBounds.right_bounds_x := PlotBounds.right_bounds_x acc;
             PlotBounds.right_bounds_y := PlotBounds.right_bounds_y acc;
             PlotBounds.valid_markers :=
               (PlotBounds.valid_markers acc + List.length l)%nat |}.
Proof.
  induction l as [| [wp p] rest IH]; intros s acc.
  - cbn. rewrite !app_nil_r, Nat.add_0_r. destruct acc; reflexivity.
  - cbn [List.length seq combine map PlotBounds.scan_markers].
    unfold left_marker at 1. rewrite scan_left_marker, IH.
    cbn [PlotBounds.left_bounds_x PlotBounds.left_bounds_y
         PlotBounds.right_bounds_x PlotBounds.right_bounds_y
         PlotBounds.valid_markers].
    rewrite <- !app_assoc. cbn [app]. rewrite Nat.add_succ_r. reflexivity.
Qed.

Lemma scan_right_markers (l : list (Waypoint * (float * float))) :
  forall (s : nat) (acc : PlotBounds.bounds),
    PlotBounds.scan_markers acc
      (map (fun '(i, (wp, p)) => right_marker i wp p)
           (combine (seq s (List.length l)) l))
    = inr {| PlotBounds.left_bounds_x := PlotBounds.left_bounds_x acc;
             PlotBounds.left_bounds_y := PlotBounds.left_bounds_y acc;
             PlotBounds.right_bounds_x :=
               PlotBounds.right_bounds_x acc
               ++ map (fun '(wp, p) => (x_m wp + d_right wp * fst p)%float) l;
             PlotBounds.right_bounds_y :=
               PlotBounds.right_bounds_y acc
               ++ map (fun '(wp, p) => (y_m wp - d_right wp * snd p)%float) l;
             PlotBounds.valid_markers :=
               (PlotBounds.valid_markers acc + List.length l)%nat |}.
Proof.
  induction l as [| [wp p] rest IH]; intros s acc.
  - cbn. rewrite !app_nil_r, Nat.add_0_r. destruct acc; reflexivity.
  - cbn [List.length seq combine map PlotBounds.scan_markers].
    unfold right_marker at 1. rewrite scan_right_marker, IH.
    cbn [PlotBounds.left_bounds_x PlotBounds.left_bounds_y
         PlotBounds.right_bounds_x PlotBounds.right_bounds_y
         PlotBounds.valid_markers].
    rewrite <- !app_assoc. cbn [app]. rewrite Nat.add_succ_r. reflexivity.
Qed.

(** The plotting utility gets back the boundary the converter generated.
    When [create_trackbounds_markers] returns its markers, [math.sin] and
    [math.cos] have returned a sine [s] and a cosine [c] for the heading
    of every sampled waypoint, and from the markers the utility extracts,
    in the order of the sample, the left points
    [(x - d_left * s, y + d_left * c)] and the right points
    [(x + d_right * s, y - d_right * c)], as many of the one as of the
    other, and counts every marker as valid. *)
Theorem plotted_bounds_are_the_generated_ones (waypoints : list Waypoint)
  (markers : list pyval) :
  trackbounds_marker_list waypoints = Ok markers ->
  let sampled := sampled_for_bounds waypoints in
  exists sc,
    headings_resolve sampled sc
    /\ List.length sc = List.length sampled
    /\ PlotBounds.extract_trackbounds_coordinates markers
       = inr {| PlotBounds.left_bounds_x :=
                  map (fun '(wp, p) => (x_m wp - d_left wp * fst p)%float)
                      (combine sampled sc);
                PlotBounds.left_bounds_y :=
                  map (fun '(wp, p) => (y_m wp + d_left wp * snd p)%float)
                      (combine sampled sc);
                PlotBounds.right_bounds_x :=
                  map (fun '(wp, p) => (x_m wp + d_right wp * fst p)%float)
                      (combine sampled sc);
                PlotBounds.right_bounds_y :=
                  map (fun '(wp, p) => (y_m wp - d_right wp * snd p)%float)
                      (combine sampled sc);
                PlotBounds.valid_markers := (2 * List.length sampled)%nat |}.
Proof.
  intros Hm sampled.
  destruct (trackbounds_marker_list_inv _ _ Hm) as (sc & Hsc & ->).
  fold sampled in Hsc |- *.
  exists sc. split; [exact Hsc |].
  split; [symmetry; exact (Forall2_length Hsc) |].
  unfold PlotBounds.extract_trackbounds_coordinates, enumerate.
  rewrite scan_markers_app, scan_left_markers, scan_right_markers.
  cbn [PlotBounds.left_bounds_x PlotBounds.left_bounds_y
       PlotBounds.right_bounds_x PlotBounds.right_bounds_y
       PlotBounds.valid_markers PlotBounds.no_bounds app].
  rewrite (resolved_length _ _ Hsc). f_equal. f_equal. lia.
Qed.

Lemma checked_position_ns (marker : pyval) (position : list (string * pyval)) :
  PlotBounds.checked_position marker = Some position ->
  exists m, marker = PDict m
            /\ (PlotBounds.is_str (assoc "ns" m) "trackbounds_left"
                || PlotBounds.is_str (assoc "ns" m) "trackbounds_right") = true.
Proof.
  unfold PlotBounds.checked_position.
  destruct marker as [| | | | | m]; try discriminate.
  destruct (PlotBounds.has_key m "ns"); [| discriminate]. cbn [andb].
  destruct (_ || _) eqn:E; [| discriminate].
  intros _. exists m. split; [reflexivity | exact E].
Qed.

Lemma scan_marker_paired (acc : PlotBounds.bounds) (marker : pyval) :
  paired acc ->
  match PlotBounds.scan_marker acc marker with
  | inl e => e = PlotBounds.OverflowError
  | inr acc' =>
      paired acc'
      /\ (PlotBounds.valid_markers acc' <= S (PlotBounds.valid_markers acc))%nat
  end.
Proof.
  unfold paired. intros (Hl & Hr & Hv). unfold PlotBounds.scan_marker.
  destruct (PlotBounds.checked_position marker) as [position |] eqn:Ec;
    [| repeat split; auto].
  destruct (checked_position_ns _ _ Ec) as (m & -> & Hns).
  destruct (assoc "x" position) as [vx |]; [| repeat split; auto].
  destruct (assoc "y" position) as [vy |]; [| repeat split; auto].
  destruct (PlotBounds.float_of_value vx) as [[e |] | x];
    [repeat split; auto | reflexivity |].
  destruct (PlotBounds.float_of_value vy) as [[e |] | y];
    [repeat split; auto | reflexivity |].
  destruct (PlotBounds.is_str (assoc "ns" m) "trackbounds_left");
    [cbn; rewrite !length_app; cbn; repeat split; lia |].
  cbn [orb] in Hns. rewrite Hns.
  cbn; rewrite !length_app; cbn; repeat split; lia.
Qed.

Lemma scan_markers_paired (markers : list pyval) :
  forall acc,
    paired acc ->
    match PlotBounds.scan_markers acc markers with
    | inl e => e = PlotBounds.OverflowError
    | inr acc' =>
        paired acc'
        /\ (PlotBounds.valid_markers acc'
            <= PlotBounds.valid_markers acc + List.length markers)%nat
    end.
Proof.
  induction markers as [| m rest IH]; intros acc Hacc;
    cbn [PlotBounds.scan_markers List.length].
  - split; [exact Hacc | lia].
  - pose proof (scan_marker_paired acc m Hacc) as H.
    destruct (PlotBounds.scan_marker acc m) as [e | acc']; [exact H |].
    destruct H as [Hp Hle]. specialize (IH acc' Hp).
    destruct (PlotBounds.scan_markers acc' rest); [exact IH |].
    destruct IH as [Hp' Hle']. split; [exact Hp' | lia].
Qed.

(** On any list of markers, the reader returns as many left (right) [x]
    as left (right) [y], counts as valid exactly the points it took, and
    takes at most one point per marker. No [KeyError], [TypeError] or
    [ValueError] leaves it; the one error that does is the
    [OverflowError] of [float] on an integer coordinate too large for a
    binary64. *)
Theorem boundary_reader_keeps_pairs (markers : list pyval) :
  match PlotBounds.extract_trackbounds_coordinates markers with
  | inl e => e = PlotBounds.OverflowError
  | inr b =>
      List.length (PlotBounds.left_bounds_x b)
      = List.length (PlotBounds.left_bounds_y b)
      /\ List.length (PlotBounds.right_bounds_x b)
         = List.length (PlotBounds.right_bounds_y b)
      /\ PlotBounds.valid_markers b
         = (List.length (PlotBounds.left_bounds_x b)
            + List.length (PlotBounds.right_bounds_x b))%nat
      /\ (PlotBounds.valid_markers b <= List.length markers)%nat
  end.
Proof.
  unfold PlotBounds.extract_trackbounds_coordinates.
  pose proof (scan_markers_paired markers PlotBounds.no_bounds) as H.
  specialize (H ltac:(repeat split)).
  destruct (PlotBounds.scan_markers PlotBounds.no_bounds markers) as [e | b];
    [exact H |].
  destruct H as [(Hl & Hr & Hv) Hle]. cbn in Hle. repeat split; assumption.
Qed.

End BoundsReaderFacts.

Lemma plotted_bounds_are_the_generated_ones_witness :
  exists markers b,
    trackbounds_marker_list (rt := Reference.runtime) Samples.four_waypoints
    = Ok markers
    /\ PlotBounds.extract_trackbounds_coordinates (rt := Reference.runtime)
         markers = inr b
    /\ List.length (PlotBounds.left_bounds_x b) = 4%nat
    /\ List.length (PlotBounds.right_bounds_y b) = 4%nat
    /\ PlotBounds.valid_markers b = 8%nat.
Proof.
  assert (Hm : exists markers,
             trackbounds_marker_list (rt := Reference.runtime)
               Samples.four_waypoints = Ok markers)
    by (eexists; vm_compute; reflexivity).
  destruct Hm as [markers Hm]. exists markers.
  destruct (plotted_bounds_are_the_generated_ones (rt := Reference.runtime)
              Samples.four_waypoints markers Hm) as (sc & _ & Hlen & Hb).
  eexists. split; [exact Hm |]. split; [exact Hb |].
  cbn [PlotBounds.left_bounds_x PlotBounds.right_bounds_y
       PlotBounds.valid_markers].
  rewrite !length_map, length_combine, Hlen, Nat.min_id.
  repeat split.
Defined.

(** A marker whose [x] is the integer 10^400 makes the reader fail with
    [OverflowError], which its [except] clause does not name. *)
Example boundary_reader_overflows :
  PlotBounds.extract_trackbounds_coordinates (rt := Reference.runtime)
    [PDict [("ns", PStr "trackbounds_left");
            ("pose", PDict [("position",
                             PDict [("x", PInt (10 ^ 400));
                                    ("y", PFloat 0)])])]]
  = inl PlotBounds.OverflowError.
Proof. vm_compute. reflexivity. Qed.
